(** * Wound-Care backend: a shallow embedding of [app/deepskin_processor.py]
      and [app/gemini_enhancer.py].

    The Python code is orchestration around third-party collaborators
    (OpenCV, NumPy, the deepskin library, the Gemini client).  The
    collaborators are taken as records of functions; everything the
    repository itself computes (mask splitting, pixel counting, rounding,
    keyword classification, heat-map blending, the try/except structure,
    the strategy fall-back) is written out as executable definitions.

    Conventions.
    - A Python exception is a value [Raise msg] of the error monad [exc];
      [msg] stands for [str(e)].
    - A finite Python float is the rational it denotes; float arithmetic
      is idealised as exact rational arithmetic, [round(x, n)] as
      round-half-to-even on the exact value.
    - A NumPy array is its shape together with its C-order flat buffer. *)

From Stdlib Require Import ZArith QArith Qround String Ascii List Bool Lia Lqa.
Import ListNotations.

Local Open Scope string_scope.
Local Open Scope Z_scope.

(* ===================================================================== *)
(** ** Python values and exceptions                                        *)
(* ===================================================================== *)

(** The outcome of a call that may raise. *)
Inductive exc (A : Type) : Type :=
| Ok (a : A)
| Raise (msg : string).
Arguments Ok {A} a.
Arguments Raise {A} msg.

Definition bind {A B : Type} (c : exc A) (k : A -> exc B) : exc B :=
  match c with
  | Ok a => k a
  | Raise e => Raise e
  end.

(** [try: c  except Exception as e: h e] *)
Definition try_except {A : Type} (c : exc A) (h : string -> A) : A :=
  match c with
  | Ok a => a
  | Raise e => h e
  end.

Declare Scope exc_scope.
Delimit Scope exc_scope with exc.
Notation "x <- c ;; k" := (bind c (fun x => k))
  (at level 61, c at next level, right associativity) : exc_scope.

(** A Python float: a finite value (a rational), an infinity or NaN. *)
Inductive pyfloat : Type :=
| Finite (q : Q)
| PosInf
| NegInf
| NaN.

(** [x < c] for a float [x] and a finite constant [c]; every comparison
    with NaN is false. *)
Definition float_lt (x : pyfloat) (c : Q) : bool :=
  match x with
  | Finite q => negb (Qle_bool c q)
  | NegInf => true
  | PosInf | NaN => false
  end.

(** Round-half-to-even of a rational to an integer. *)
Definition round_half_even (q : Q) : Z :=
  let f := Qfloor q in
  match Qcompare (q - inject_Z f) (1 # 2) with
  | Lt => f
  | Gt => f + 1
  | Eq => if Z.even f then f else f + 1
  end.

(** [round(x, ndigits)] on a finite float, for [ndigits >= 0]. *)
Definition py_round (x : Q) (ndigits : nat) : Q :=
  let scale := Z.pow 10 (Z.of_nat ndigits) in
  Qmake (round_half_even (x * inject_Z scale)) (Z.to_pos scale).

(** [int(x)] on a finite float: truncation towards zero. *)
Definition py_int (x : Q) : Z :=
  if Qle_bool 0 x then Qfloor x else Qceiling x.

(* ===================================================================== *)
(** ** Severity mapper: [DeepskinProcessor._get_severity_level]            *)
(* ===================================================================== *)

Record Severity : Type := mkSeverity {
  level : string;
  color : string;
  description : string
}.

Definition _get_severity_level (pwat : pyfloat) : Severity :=
  if float_lt pwat 8 then
    mkSeverity "Mild" "#27ae60"
      "Wound is healing well. Continue current care."
  else if float_lt pwat 16 then
    mkSeverity "Moderate" "#f39c12"
      "Active treatment recommended. Monitor closely."
  else if float_lt pwat 24 then
    mkSeverity "Severe" "#e74c3c"
      "Requires immediate attention. Consider specialist consult."
  else
    mkSeverity "Very Severe" "#c0392b"
      "Critical - seek specialist care immediately.".

(** The four tiers in increasing order of severity. *)
Definition tier_rank (s : Severity) : nat :=
  if String.eqb (level s) "Mild" then 0%nat
  else if String.eqb (level s) "Moderate" then 1%nat
  else if String.eqb (level s) "Severe" then 2%nat
  else 3%nat.

(* ===================================================================== *)
(** ** NumPy arrays, masks and images                                      *)
(* ===================================================================== *)

(** An n-dimensional array: its shape and its flat buffer in C order. *)
Record ndarray (A : Type) : Type := mkArr {
  shape : list nat;
  data : list A
}.
Arguments mkArr {A} shape data.
Arguments shape {A} n.
Arguments data {A} n.

Definition numel (sh : list nat) : nat := fold_right Nat.mul 1%nat sh.

(** The buffer has as many elements as the shape announces. *)
Definition well_formed {A : Type} (a : ndarray A) : Prop :=
  length (data a) = numel (shape a).

(** A mask is a single-channel array of 8-bit samples; a sample belongs to
    the region when it is [> 0]. *)
Definition Mask : Type := ndarray Z.

Definition is_set (v : Z) : bool := 0 <? v.

(** [int(np.sum(mask > 0))] *)
Definition count_set (m : Mask) : Z :=
  Z.of_nat (length (filter is_set (data m))).

(** [np.any(mask > 0)] *)
Definition any_set (m : Mask) : bool := existsb is_set (data m).

(** [np.all(mask == 0)] *)
Definition all_zero (m : Mask) : bool := forallb (fun v => v =? 0) (data m).

(** [np.zeros_like(a)] *)
Definition zeros_like (a : ndarray Z) : ndarray Z :=
  mkArr (shape a) (repeat 0 (length (data a))).

(** [a.astype(np.uint8)] on integer samples: reduction modulo 256. *)
Definition astype_uint8 (a : ndarray Z) : ndarray Z :=
  mkArr (shape a) (map (fun v => v mod 256) (data a)).

(** [seg[:, :, k]] for [seg] of shape [(h, w, c)]. *)
Definition channel (k : nat) (seg : ndarray Z) : ndarray Z :=
  match shape seg with
  | [h; w; c] =>
      mkArr [h; w]
            (map (fun p => nth (p * c + k) (data seg) 0) (seq 0 (h * w)))
  | _ => mkArr [] []
  end.

(** A colour raster of [height * width] pixels with three samples each,
    stored pixel after pixel, which is what [cv2.imdecode(_, IMREAD_COLOR)]
    returns; [A] is [Z] for 8-bit rasters and [Q] for float32 ones. *)
Record Image (A : Type) : Type := mkImage {
  height : nat;
  width : nat;
  pixels : list A
}.
Arguments mkImage {A} height width pixels.
Arguments height {A} i.
Arguments width {A} i.
Arguments pixels {A} i.

Definition image_ok {A : Type} (im : Image A) : Prop :=
  length (pixels im) = (height im * width im * 3)%nat.

(** [im.shape] *)
Definition img_shape {A : Type} (im : Image A) : nat * nat * nat :=
  (height im, width im, 3%nat).

(** A contour is the list of its vertices [(x, y)]. *)
Definition Contour : Type := list (Z * Z).

(** The OpenCV and NumPy entry points the processor calls without writing
    them itself.  Drawing primitives are given by the set of pixels
    [(row, column)] they paint: they update a raster in place and never
    change its shape. *)
Record Cv2 : Type := mkCv2 {
  imdecode : list Z -> exc (option (Image Z));
  imencode : string -> list nat -> list Z -> exc (list Z);
  b64encode : list Z -> string;
  findContours : Mask -> list Contour;
  contourArea : Contour -> Q;
  arcLength : Contour -> bool -> Q;
  boundingRect : Contour -> Z * Z * Z * Z;
  contour_stroke : list Contour -> Z -> nat -> nat -> bool;
  text_stroke : string -> Z * Z -> nat -> nat -> bool;
  np_sqrt : Q -> Q
}.

(** [np.pi], the binary64 float nearest to pi. *)
Definition np_pi : Q := 884279719003555 # 281474976710656.

(* ===================================================================== *)
(** ** Geometric metrics: [DeepskinProcessor._calculate_wound_metrics]     *)
(* ===================================================================== *)

Record BoundingBox : Type := mkBox {
  box_width : Z;
  box_height : Z;
  box_x : Z;
  box_y : Z
}.

Record Metrics : Type := mkMetrics {
  wound_area_pixels : Z;
  wound_area_percentage : Q;
  peri_area_pixels : Z;
  peri_area_percentage : Q;
  wound_perimeter_pixels : Z;
  estimated_diameter_pixels : Q;
  bounding_box : BoundingBox
}.

(** [max(x :: l, key=key)]: the first element whose key is maximal; the
    running best is replaced only by a strictly larger key. *)
Fixpoint max_from {A : Type} (key : A -> Q) (best : A) (l : list A) : A :=
  match l with
  | [] => best
  | x :: t =>
      if Qle_bool (key x) (key best) then max_from key best t
      else max_from key x t
  end.

(** What the contour branch computes before the values are formatted:
    [(perimeter, diameter, (x, y, box_w, box_h))]. *)
Definition contour_geometry (cv : Cv2) (wound_pixels : Z)
    (contours : list Contour) : Q * Q * (Z * Z * Z * Z) :=
  match contours with
  | c0 :: rest =>
      let main_contour := max_from (contourArea cv) c0 rest in
      let perimeter := arcLength cv main_contour true in
      let diameter :=
        if 0 <? wound_pixels
        then (2 * np_sqrt cv (inject_Z wound_pixels / np_pi))%Q
        else 0%Q in
      (perimeter, diameter, boundingRect cv main_contour)
  | [] => (0%Q, 0%Q, (0, 0, 0, 0))
  end.

(** [round((pixels / total_pixels) * 100, 2) if total_pixels > 0 else 0] *)
Definition area_percentage (pixels total_pixels : Z) : Q :=
  if 0 <? total_pixels
  then py_round ((inject_Z pixels / inject_Z total_pixels) * 100) 2
  else 0%Q.

Definition _calculate_wound_metrics (cv : Cv2) (wound_mask peri_mask : Mask)
    (img_shape : nat * nat * nat) : Metrics :=
  let '(h, w, _) := img_shape in
  let total_pixels := Z.of_nat h * Z.of_nat w in
  let wound_pixels := count_set wound_mask in
  let peri_pixels := count_set peri_mask in
  let contours := findContours cv wound_mask in
  let '(perimeter, diameter, (x, y, box_w, box_h)) :=
    contour_geometry cv wound_pixels contours in
  {| wound_area_pixels := wound_pixels;
     wound_area_percentage := area_percentage wound_pixels total_pixels;
     peri_area_pixels := peri_pixels;
     peri_area_percentage := area_percentage peri_pixels total_pixels;
     wound_perimeter_pixels := py_int perimeter;
     estimated_diameter_pixels := py_round diameter 2;
     bounding_box := mkBox box_w box_h x y |}.

(* ===================================================================== *)
(** ** Feature classifier: [DeepskinProcessor._format_features]            *)
(* ===================================================================== *)

(** A feature value: an integer, a float, or any other object, which is
    kept through its [str()] form. *)
Inductive PyVal : Type :=
| VInt (z : Z)
| VFloat (f : pyfloat)
| VStr (s : string).

(** A Python dict in insertion order. *)
Definition Dict (V : Type) : Type := list (string * V).

(** [d[key] = val]: an existing key keeps its place, a new one goes last. *)
Fixpoint dict_set {V : Type} (key : string) (val : V) (d : Dict V) : Dict V :=
  match d with
  | [] => [(key, val)]
  | (k, v) :: rest =>
      if String.eqb k key then (k, val) :: rest
      else (k, v) :: dict_set key val rest
  end.

Fixpoint dict_get {V : Type} (key : string) (d : Dict V) : option V :=
  match d with
  | [] => None
  | (k, v) :: rest => if String.eqb k key then Some v else dict_get key rest
  end.

(** [round(float(value), 4)]; infinities and NaN round to themselves. *)
Definition round_float (f : pyfloat) (ndigits : nat) : pyfloat :=
  match f with
  | Finite q => Finite (py_round q ndigits)
  | other => other
  end.

Definition normalize_value (value : PyVal) : PyVal :=
  match value with
  | VInt z => VInt z
  | VFloat f => VFloat (round_float f 4)
  | VStr s => VStr s
  end.

(** [c.lower()] on an ASCII letter. *)
Definition lower_ascii (c : ascii) : ascii :=
  let n := nat_of_ascii c in
  if (Nat.leb 65 n && Nat.leb n 90)%bool then ascii_of_nat (n + 32) else c.

(** [key.lower()] *)
Fixpoint lower (s : string) : string :=
  match s with
  | EmptyString => EmptyString
  | String c rest => String (lower_ascii c) (lower rest)
  end.

(** [needle in hay] *)
Fixpoint contains (needle hay : string) : bool :=
  match hay with
  | EmptyString => String.prefix needle EmptyString
  | String _ rest => String.prefix needle hay || contains needle rest
  end.

Definition texture_keys : list string :=
  ["contrast"; "homogeneity"; "energy"; "correlation"; "asm"; "entropy"].
Definition color_keys : list string :=
  ["red"; "green"; "blue"; "hue"; "saturation"; "value"; "rgb"].
Definition morphology_keys : list string :=
  ["area"; "perimeter"; "circularity"; "eccentricity"; "solidity"; "extent"].

Inductive Category : Type :=
| Texture | Color | Morphology | Intensity | Other.

Definition category_name (c : Category) : string :=
  match c with
  | Texture => "Texture"
  | Color => "Color"
  | Morphology => "Morphology"
  | Intensity => "Intensity"
  | Other => "Other"
  end.

(** [any(t in key_lower for t in keys)] *)
Definition any_in (keys : list string) (key_lower : string) : bool :=
  existsb (fun t => contains t key_lower) keys.

(** The if/elif chain of the loop body. *)
Definition categorize (key : string) : Category :=
  let key_lower := lower key in
  if any_in texture_keys key_lower then Texture
  else if any_in color_keys key_lower then Color
  else if any_in morphology_keys key_lower then Morphology
  else if (contains "mean" key_lower || contains "std" key_lower
           || contains "intensity" key_lower)%bool then Intensity
  else Other.

(** The five sub-dicts of [categories], in the order they are created. *)
Record Categories : Type := mkCategories {
  cat_texture : Dict PyVal;
  cat_color : Dict PyVal;
  cat_morphology : Dict PyVal;
  cat_intensity : Dict PyVal;
  cat_other : Dict PyVal
}.

Definition empty_categories : Categories := mkCategories [] [] [] [] [].

(** [categories[c][key] = val] *)
Definition categories_set (c : Category) (key : string) (val : PyVal)
    (cats : Categories) : Categories :=
  match c with
  | Texture =>
      mkCategories (dict_set key val (cat_texture cats)) (cat_color cats)
        (cat_morphology cats) (cat_intensity cats) (cat_other cats)
  | Color =>
      mkCategories (cat_texture cats) (dict_set key val (cat_color cats))
        (cat_morphology cats) (cat_intensity cats) (cat_other cats)
  | Morphology =>
      mkCategories (cat_texture cats) (cat_color cats)
        (dict_set key val (cat_morphology cats)) (cat_intensity cats)
        (cat_other cats)
  | Intensity =>
      mkCategories (cat_texture cats) (cat_color cats) (cat_morphology cats)
        (dict_set key val (cat_intensity cats)) (cat_other cats)
  | Other =>
      mkCategories (cat_texture cats) (cat_color cats) (cat_morphology cats)
        (cat_intensity cats) (dict_set key val (cat_other cats))
  end.

Definition categories_get (c : Category) (cats : Categories) : Dict PyVal :=
  match c with
  | Texture => cat_texture cats
  | Color => cat_color cats
  | Morphology => cat_morphology cats
  | Intensity => cat_intensity cats
  | Other => cat_other cats
  end.

(** The [for key, value in features.items()] loop. *)
Definition classify_all (features : Dict PyVal) : Categories :=
  fold_left
    (fun cats kv => categories_set (categorize (fst kv)) (fst kv)
                      (normalize_value (snd kv)) cats)
    features empty_categories.

Definition all_categories : list Category :=
  [Texture; Color; Morphology; Intensity; Other].

(** [{k: v for k, v in categories.items() if v}] *)
Definition drop_empty (cats : Categories) : Dict (Dict PyVal) :=
  map (fun c => (category_name c, categories_get c cats))
      (filter (fun c => match categories_get c cats with
                        | [] => false
                        | _ => true
                        end) all_categories).

Definition _format_features (features : Dict PyVal) : Dict (Dict PyVal) :=
  match features with
  | [] => []
  | _ => drop_empty (classify_all features)
  end.

(** The Feature Map [{"contrast_x": 1.2345678, "redness": "high"}]. *)
Definition example_features : Dict PyVal :=
  [("contrast_x", VFloat (Finite (12345678 # 10000000)));
   ("redness", VStr "high")].

(* ===================================================================== *)
(** ** Raster operations used by the visualisations                        *)
(* ===================================================================== *)

Fixpoint mapi_from {A B : Type} (f : nat -> A -> B) (i : nat) (l : list A)
    : list B :=
  match l with
  | [] => []
  | x :: t => f i x :: mapi_from f (S i) t
  end.

(** Sample number [i] of the flat buffer belongs to pixel [i / 3] and is
    its channel [i mod 3]. *)
Definition channel_of {A : Type} (color : A * A * A) (ch : nat) : A :=
  let '(c0, c1, c2) := color in
  match ch with
  | O => c0
  | S O => c1
  | _ => c2
  end.

(** Every pixel selected by [sel] (by pixel number) takes [color]; the
    others keep their samples.  The shape is untouched. *)
Definition fill_where {A : Type} (sel : nat -> bool) (color : A * A * A)
    (im : Image A) : Image A :=
  mkImage (height im) (width im)
    (mapi_from (fun i v => if sel (i / 3)%nat
                           then channel_of color (i mod 3)%nat else v)
               0%nat (pixels im)).

(** Selection by [(row, column)], for the drawing primitives. *)
Definition at_row_col (w : nat) (sel : nat -> nat -> bool) (p : nat) : bool :=
  sel (p / w)%nat (p mod w)%nat.

Definition shape_eq_dec : forall s t : list nat, {s = t} + {s <> t} :=
  list_eq_dec Nat.eq_dec.

(** [im[mask > 0] = color]: NumPy raises IndexError unless the boolean
    index has the shape of the leading two axes. *)
Definition assign_where_set {A : Type} (mask : Mask) (color : A * A * A)
    (im : Image A) : exc (Image A) :=
  if shape_eq_dec (shape mask) [height im; width im]
  then Ok (fill_where (fun p => is_set (nth p (data mask) 0)) color im)
  else Raise "IndexError: boolean index did not match indexed array".

Definition zeros_like_image {A : Type} (zero : A) (im : Image A) : Image A :=
  mkImage (height im) (width im) (repeat zero (length (pixels im))).

(** [rgb.copy().astype(np.float32)] *)
Definition astype_float32 (im : Image Z) : Image Q :=
  mkImage (height im) (width im) (map inject_Z (pixels im)).

(** One sample of [cv2.addWeighted]. *)
Definition weighted (alpha beta gamma : Q) (ab : Q * Q) : Q :=
  (fst ab * alpha + snd ab * beta + gamma)%Q.

(** [cv2.addWeighted(src1, alpha, src2, beta, gamma)] on float32 rasters;
    OpenCV raises when the sizes differ. *)
Definition addWeighted (src1 : Image Q) (alpha : Q) (src2 : Image Q)
    (beta gamma : Q) : exc (Image Q) :=
  if (Nat.eqb (height src1) (height src2)
      && Nat.eqb (width src1) (width src2))%bool
  then Ok (mkImage (height src1) (width src1)
             (map (weighted alpha beta gamma)
                  (combine (pixels src1) (pixels src2))))
  else Raise "cv2.error: sizes of input arguments do not match".

(** One sample of [np.clip(x, 0, 255).astype(np.uint8)]. *)
Definition clip_sample (x : Q) : Z :=
  if Qle_bool x 0 then 0
  else if Qle_bool 255 x then 255
  else Qfloor x.

Definition clip_uint8 (im : Image Q) : Image Z :=
  mkImage (height im) (width im) (map clip_sample (pixels im)).

(** [saturate_cast<uchar>]: rounding to nearest, then clamping. *)
Definition saturate_u8 (x : Q) : Z :=
  Z.max 0 (Z.min 255 (round_half_even x)).

(** [cv2.addWeighted] on 8-bit rasters. *)
Definition addWeighted_u8 (src1 : Image Z) (alpha : Q) (src2 : Image Z)
    (beta gamma : Q) : exc (Image Z) :=
  if (Nat.eqb (height src1) (height src2)
      && Nat.eqb (width src1) (width src2))%bool
  then Ok (mkImage (height src1) (width src1)
             (map (fun ab => saturate_u8
                               (weighted alpha beta gamma
                                  (inject_Z (fst ab), inject_Z (snd ab))))
                  (combine (pixels src1) (pixels src2))))
  else Raise "cv2.error: sizes of input arguments do not match".

(** [cv2.bitwise_and(rgb, rgb, mask=mask)]: pixels outside the mask are
    zero; OpenCV raises when the mask has another size. *)
Definition bitwise_and_masked (rgb : Image Z) (mask : Mask) : exc (Image Z) :=
  if Nat.eqb (length (data mask)) (height rgb * width rgb)
  then Ok (mkImage (height rgb) (width rgb)
             (mapi_from (fun i v => if nth (i / 3)%nat (data mask) 0 =? 0
                                    then 0 else Z.land v v)
                        0%nat (pixels rgb)))
  else Raise "cv2.error: mask size mismatch".

(** [cv2.drawContours(im, contours, -1, color, thickness)] *)
Definition drawContours (cv : Cv2) (im : Image Z) (contours : list Contour)
    (color : Z * Z * Z) (thickness : Z) : Image Z :=
  fill_where (at_row_col (width im) (contour_stroke cv contours thickness))
    color im.

(** [cv2.rectangle(im, (x1, y1), (x2, y2), color, -1)]: filled, both
    corners included. *)
Definition rectangle (im : Image Z) (pt1 pt2 : nat * nat) (color : Z * Z * Z)
    : Image Z :=
  fill_where
    (at_row_col (width im)
       (fun row col =>
          (Nat.leb (fst pt1) col && Nat.leb col (fst pt2)
           && Nat.leb (snd pt1) row && Nat.leb row (snd pt2))%bool))
    color im.

(** [cv2.putText(im, text, org, FONT_HERSHEY_SIMPLEX, 0.5, color, 1)] *)
Definition putText (cv : Cv2) (im : Image Z) (text : string) (org : Z * Z)
    (color : Z * Z * Z) : Image Z :=
  fill_where (at_row_col (width im) (text_stroke cv text org)) color im.

(** [np.zeros((rows, cols, 3), dtype=np.uint8)] *)
Definition zeros_image (rows cols : nat) : Image Z :=
  mkImage rows cols (repeat 0 (rows * cols * 3)).

(** [np.vstack([top, bottom])]: NumPy raises ValueError unless the widths
    agree. *)
Definition vstack {A : Type} (top bottom : Image A) : exc (Image A) :=
  if Nat.eqb (width top) (width bottom)
  then Ok (mkImage (height top + height bottom) (width top)
             (pixels top ++ pixels bottom)%list)
  else Raise "ValueError: all the input array dimensions must match".

(** [cv2.cvtColor(im, COLOR_BGR2RGB)] and [COLOR_RGB2BGR]: the first and
    third sample of every pixel change places. *)
Fixpoint swap_channels (l : list Z) : list Z :=
  match l with
  | c0 :: c1 :: c2 :: rest => c2 :: c1 :: c0 :: swap_channels rest
  | other => other
  end.

Definition cvtColor (im : Image Z) : Image Z :=
  mkImage (height im) (width im) (swap_channels (pixels im)).

(** The height of the legend strip. *)
Definition legend_height : nat := 60.

(** Lines 225-232: the legend under the heat map. *)
Definition legend (cv : Cv2) (cols : nat) : Image Z :=
  let l0 := zeros_image legend_height cols in
  let l1 := rectangle l0 (10, 10)%nat (30, 30)%nat (0, 0, 255) in
  let l2 := putText cv l1 "Wound" (40, 25) (255, 255, 255) in
  let l3 := rectangle l2 (150, 10)%nat (170, 30)%nat (255, 0, 0) in
  putText cv l3 "Peri-wound" (180, 25) (255, 255, 255).

(** One [if np.any(mask > 0): ... heatmap = cv2.addWeighted(...)] block. *)
Definition blend_region (applies : bool) (mask : Mask) (tint : Q * Q * Q)
    (keep opacity : Q) (heatmap : Image Q) : exc (Image Q) :=
  if applies then
    bind (assign_where_set mask tint (zeros_like_image 0%Q heatmap))
         (fun overlay => addWeighted heatmap keep overlay opacity 0)
  else Ok heatmap.

(** Lines 199-235 of [_create_all_visualizations]: the heat map with its
    legend, before encoding. *)
Definition heatmap_with_legend (cv : Cv2) (rgb : Image Z)
    (wound_mask peri_mask body_mask : Mask) : exc (Image Z) :=
  (h1 <- blend_region (any_set wound_mask) wound_mask
           (255, 100, 100)%Q (6 # 10) (4 # 10) (astype_float32 rgb) ;;
   h2 <- blend_region (any_set peri_mask) peri_mask
           (100, 100, 255)%Q (6 # 10) (4 # 10) h1 ;;
   h3 <- blend_region (any_set body_mask && negb (all_zero body_mask))
           body_mask (100, 255, 100)%Q (8 # 10) (2 # 10) h2 ;;
   let heatmap := clip_uint8 h3 in
   vstack heatmap (legend cv (width heatmap)))%exc.

(* ===================================================================== *)
(** ** Encoders: [_image_to_base64], [_mask_to_base64]                     *)
(* ===================================================================== *)

(** Both encoders catch their own failure and answer the empty string. *)
Definition _image_to_base64 (cv : Cv2) (image : Image Z) : string :=
  try_except
    (buffer <- imencode cv ".jpg" [height image; width image; 3%nat]
                 (pixels (cvtColor image)) ;;
     Ok (b64encode cv buffer))%exc
    (fun _ => "").

Definition _mask_to_base64 (cv : Cv2) (mask : ndarray Z) (is_color : bool)
    : string :=
  try_except
    (buffer <- (if is_color
                then imencode cv ".png" (shape mask) (data mask)
                else imencode cv ".png" (shape mask)
                       (map (fun v => if is_set v then 255 else 0)
                            (data mask))) ;;
     Ok (b64encode cv buffer))%exc
    (fun _ => "").

(* ===================================================================== *)
(** ** [DeepskinProcessor._create_all_visualizations]                      *)
(* ===================================================================== *)

(** Lines 238-251: the additive overlay. *)
Definition transparency_overlay (rgb : Image Z) (wound_mask peri_mask : Mask)
    : exc (Image Z) :=
  (wound_color <- assign_where_set wound_mask (255, 0, 0)
                    (zeros_like_image 0 rgb) ;;
   peri_color <- assign_where_set peri_mask (0, 0, 255)
                   (zeros_like_image 0 rgb) ;;
   overlay <- addWeighted_u8 rgb 1 wound_color (3 # 10) 0 ;;
   addWeighted_u8 overlay 1 peri_color (3 # 10) 0)%exc.

(** The body of the single [try]: every entry written before a failure
    stays in [vis], every later one is missing. *)
Definition _create_all_visualizations (cv : Cv2) (rgb : Image Z)
    (wound_mask peri_mask body_mask : Mask) : Dict string :=
  let contours := findContours cv wound_mask in
  let wound_outline := drawContours cv rgb contours (0, 255, 0) 3 in
  let vis1 := dict_set "wound_outline" (_image_to_base64 cv wound_outline) [] in
  let combined0 :=
    if any_set peri_mask
    then drawContours cv rgb (findContours cv peri_mask) (255, 0, 0) 2
    else rgb in
  let combined := drawContours cv combined0 contours (0, 255, 0) 3 in
  let vis2 := dict_set "combined_outline" (_image_to_base64 cv combined) vis1 in
  match bitwise_and_masked rgb wound_mask with
  | Raise _ => vis2
  | Ok wound_only =>
      let vis3 := dict_set "wound_only" (_image_to_base64 cv wound_only) vis2 in
      match heatmap_with_legend cv rgb wound_mask peri_mask body_mask with
      | Raise _ => vis3
      | Ok heatmap =>
          let vis4 := dict_set "heatmap" (_image_to_base64 cv heatmap) vis3 in
          match transparency_overlay rgb wound_mask peri_mask with
          | Raise _ => vis4
          | Ok overlay =>
              dict_set "overlay" (_image_to_base64 cv overlay) vis4
          end
      end
  end.

(* ===================================================================== *)
(** ** [DeepskinProcessor.process_image]                                   *)
(* ===================================================================== *)

(** The deepskin library. *)
Record Deepskin : Type := mkDeepskin {
  wound_segmentation : Image Z -> exc (ndarray Z);
  get_perilesion_mask : Mask -> nat * nat -> exc Mask;
  imfill : Mask -> exc Mask;
  evaluate_features : Image Z -> Mask -> string -> exc (Dict PyVal);
  evaluate_PWAT_score : Image Z -> ndarray Z -> nat * nat -> exc pyfloat
}.

(** Lines 56-63: the split of the multi-class mask into
    [(wound_mask, body_mask, bg_mask)]. *)
Definition split_masks (segmentation : ndarray Z) : Mask * Mask * Mask :=
  if (Nat.eqb (length (shape segmentation)) 3
      && Nat.leb 2 (nth 2 (shape segmentation) 0%nat))%bool
  then
    let wound_mask := astype_uint8 (channel 0 segmentation) in
    let body_mask := astype_uint8 (channel 1 segmentation) in
    let bg_mask :=
      if Nat.ltb 2 (nth 2 (shape segmentation) 0%nat)
      then astype_uint8 (channel 2 segmentation)
      else zeros_like wound_mask in
    (wound_mask, body_mask, bg_mask)
  else
    let wound_mask := astype_uint8 segmentation in
    (wound_mask, zeros_like wound_mask, zeros_like wound_mask).

(** [cv2.bitwise_or(a, b)] *)
Definition bitwise_or (a b : Mask) : exc Mask :=
  if shape_eq_dec (shape a) (shape b)
  then Ok (mkArr (shape a)
             (map (fun xy => Z.lor (fst xy) (snd xy))
                  (combine (data a) (data b))))
  else Raise "cv2.error: sizes of input arguments do not match".

(** [cv2.bitwise_and(src, src, mask=mask)] on masks. *)
Definition bitwise_and_mask (src mask : Mask) : exc Mask :=
  if shape_eq_dec (shape src) (shape mask)
  then Ok (mkArr (shape src)
             (map (fun sm => if snd sm =? 0 then 0
                             else Z.land (fst sm) (fst sm))
                  (combine (data src) (data mask))))
  else Raise "cv2.error: mask size mismatch".

(** Lines 68-81: the body of the [try] of the peri-wound stage. *)
Definition peri_wound_try (ds : Deepskin) (wound_mask body_mask : Mask)
    : exc Mask :=
  (peri_wound_mask <- get_perilesion_mask ds wound_mask (200, 200)%nat ;;
   if any_set body_mask then
     body_plus_wound <- bitwise_or body_mask wound_mask ;;
     filled_body <- imfill ds body_plus_wound ;;
     bitwise_and_mask peri_wound_mask filled_body
   else Ok peri_wound_mask)%exc.

(** Lines 65-85: the peri-wound mask, all zeros when the stage raises. *)
Definition peri_wound_stage (ds : Deepskin) (wound_mask body_mask : Mask)
    : Mask :=
  try_except (peri_wound_try ds wound_mask body_mask)
    (fun _ => zeros_like wound_mask).

(** The number of channels of a segmentation: the third axis when there
    is one. *)
Definition channels (segmentation : ndarray Z) : nat :=
  match shape segmentation with
  | [_; _; c] => c
  | _ => 1%nat
  end.

(** Lines 87-101: the features, an error marker when the stage raises. *)
Definition features_stage (ds : Deepskin) (rgb : Image Z) (wound_mask : Mask)
    : Dict PyVal :=
  try_except (evaluate_features ds rgb wound_mask "wound")
    (fun e => [("error", VStr e)]).

(** Lines 103-115: the score, [0.0] when the stage raises. *)
Definition score_stage (ds : Deepskin) (rgb : Image Z)
    (segmentation : ndarray Z) : pyfloat :=
  try_except (evaluate_PWAT_score ds rgb segmentation (200, 200)%nat)
    (fun _ => Finite 0).

Record MaskImages : Type := mkMaskImages {
  wound_mask_png : string;
  peri_wound_mask_png : string;
  body_mask_png : string;
  segmentation_png : string
}.

Record RawData : Type := mkRaw {
  raw_wound_area_pixels : Z;
  raw_peri_area_pixels : Z;
  raw_body_area_pixels : Z;
  raw_height : nat;
  raw_width : nat
}.

(** The [success: True] dictionary. *)
Record Analysis : Type := mkAnalysis {
  pwat_score : pyfloat;
  pwat_severity : Severity;
  wound_detected : bool;
  original_image : string;
  visualizations : Dict string;
  masks : MaskImages;
  features : Dict (Dict PyVal);
  wound_metrics : Metrics;
  raw : RawData
}.

(** What [process_image] returns: [{'success': True, ...}] or
    [{'success': False, 'error': ...}]. *)
Inductive Response : Type :=
| Success (result : Analysis)
| Failure (error : string).

Definition success (r : Response) : bool :=
  match r with
  | Success _ => true
  | Failure _ => false
  end.

(** Lines 117-165: everything after the four guarded stages. *)
Definition compile_results (cv : Cv2) (rgb : Image Z) (original_b64 : string)
    (segmentation : ndarray Z) (wound_mask peri_wound_mask body_mask : Mask)
    (features : Dict PyVal) (pwat_score : pyfloat) : Analysis :=
  let visualizations :=
    _create_all_visualizations cv rgb wound_mask peri_wound_mask body_mask in
  let wound_metrics :=
    _calculate_wound_metrics cv wound_mask peri_wound_mask (img_shape rgb) in
  {| pwat_score := pwat_score;
     pwat_severity := _get_severity_level pwat_score;
     wound_detected := any_set wound_mask;
     original_image := original_b64;
     visualizations := visualizations;
     masks := {| wound_mask_png := _mask_to_base64 cv wound_mask false;
                 peri_wound_mask_png := _mask_to_base64 cv peri_wound_mask false;
                 body_mask_png := _mask_to_base64 cv body_mask false;
                 segmentation_png := _mask_to_base64 cv segmentation true |};
     features := _format_features features;
     wound_metrics := wound_metrics;
     raw := {| raw_wound_area_pixels := count_set wound_mask;
               raw_peri_area_pixels := count_set peri_wound_mask;
               raw_body_area_pixels := count_set body_mask;
               raw_height := height rgb;
               raw_width := width rgb |} |}.

(** Lines 55-162: from the segmentation to the result dictionary.  None of
    the four stages in between lets an exception out. *)
Definition analysis_of (cv : Cv2) (ds : Deepskin) (rgb : Image Z)
    (original_b64 : string) (segmentation : ndarray Z) : Analysis :=
  let '(wound_mask, body_mask, _) := split_masks segmentation in
  let peri_wound_mask := peri_wound_stage ds wound_mask body_mask in
  let features := features_stage ds rgb wound_mask in
  let pwat_score := score_stage ds rgb segmentation in
  compile_results cv rgb original_b64 segmentation wound_mask
    peri_wound_mask body_mask features pwat_score.

(** The body of the outer [try] (lines 31-165).  It raises only where the
    Python body lets an exception reach the outer handler. *)
Definition process_image_body (cv : Cv2) (ds : Deepskin) (image_bytes : list Z)
    : exc Response :=
  (decoded <- imdecode cv image_bytes ;;
   match decoded with
   | None => Ok (Failure "Invalid image format")
   | Some bgr =>
       let rgb := cvtColor bgr in
       let original_b64 := _image_to_base64 cv rgb in
       match wound_segmentation ds rgb with
       | Raise e => Ok (Failure ("Segmentation failed: " ++ e))
       | Ok segmentation =>
           Ok (Success (analysis_of cv ds rgb original_b64 segmentation))
       end
   end)%exc.

(** Lines 30 and 167-170: the outer handler turns whatever the body raises
    into a failure record. *)
Definition process_image (cv : Cv2) (ds : Deepskin) (image_bytes : list Z)
    : Response :=
  try_except (process_image_body cv ds image_bytes) (fun e => Failure e).

(* ===================================================================== *)
(** ** Remote narrative client: [GeminiEnhancer.analyze_wound]             *)
(* ===================================================================== *)

Module Gemini.

(** A PIL image. *)
Record PilImage : Type := mkPil {
  mode : string;
  size : nat * nat;
  content : list Z
}.

(** One element of the [contents] list of a request. *)
Inductive Part : Type :=
| TextPart (text : string)
| BytesPart (data : list Z) (mime_type : string)
| ImagePart (image : PilImage).

(** PIL, the clock and the remote model, whose state is [W].  A call of
    [generate_content] answers the response text or raises, and moves the
    remote state on. *)
Record Services (W : Type) : Type := mkServices {
  image_open : list Z -> exc PilImage;
  convert : PilImage -> string -> exc PilImage;
  thumbnail : PilImage -> nat * nat -> exc PilImage;
  save_jpeg : PilImage -> exc (list Z);
  generate_content : W -> string -> list Part -> exc string * W;
  now_isoformat : W -> string;
  analysis_prompt : option pyfloat -> Z -> bool -> string -> exc string;
  short_prompt : option pyfloat -> string -> exc string
}.
Arguments image_open {W} s.
Arguments convert {W} s.
Arguments thumbnail {W} s.
Arguments save_jpeg {W} s.
Arguments generate_content {W} s.
Arguments now_isoformat {W} s.
Arguments analysis_prompt {W} s.
Arguments short_prompt {W} s.

(** What can be observed of a run: which strategy method was entered and
    which requests left for the remote model. *)
Inductive Event : Type :=
| Entered (strategy : string)
| Sent (strategy : string) (model : string) (contents : list Part).

Definition event_strategy (e : Event) : string :=
  match e with
  | Entered s => s
  | Sent s _ _ => s
  end.

Record State (W : Type) : Type := mkState {
  remote : W;
  trace : list Event
}.
Arguments mkState {W} remote trace.
Arguments remote {W} s.
Arguments trace {W} s.

Definition record {W : Type} (e : Event) (st : State W) : State W :=
  mkState (remote st) (trace st ++ [e])%list.

(** The fields of the client object that [analyze_wound] reads. *)
Record GeminiEnhancer : Type := mkEnhancer {
  available : bool;
  client : bool;
  model_name : option string;
  fallback_models : list string
}.

(** The dictionaries the client returns. *)
Inductive NarrativeResult : Type :=
| Narrative (analysis model_used strategy timestamp : string)
    (note : option string)
| StrategyFailed (error strategy : string)
| AllFailed (error details : string)
| Unavailable (error note : string) (available_models : list string).

(** [result['success']] *)
Definition succeeded (r : NarrativeResult) : bool :=
  match r with
  | Narrative _ _ _ _ _ => true
  | _ => false
  end.

(** [result.get('error', default)] *)
Definition get_error (r : NarrativeResult) (default : string) : string :=
  match r with
  | Narrative _ _ _ _ _ => default
  | StrategyFailed e _ => e
  | AllFailed e _ => e
  | Unavailable e _ _ => e
  end.

(** [result.get('strategy')] *)
Definition get_strategy (r : NarrativeResult) : option string :=
  match r with
  | Narrative _ _ s _ _ => Some s
  | StrategyFailed _ s => Some s
  | _ => None
  end.

(** [result.get('details')] *)
Definition get_details (r : NarrativeResult) : option string :=
  match r with
  | AllFailed _ d => Some d
  | _ => None
  end.

(** [deepskin_results.get('pwat_score', 'N/A')] and the nested
    [.get('pwat_severity', {}).get('level', 'Unknown')]. *)
Definition results_pwat (deepskin_results : Response) : option pyfloat :=
  match deepskin_results with
  | Success a => Some (pwat_score a)
  | Failure _ => None
  end.

Definition results_severity (deepskin_results : Response) : string :=
  match deepskin_results with
  | Success a => level (pwat_severity a)
  | Failure _ => "Unknown"
  end.

Definition results_wound_detected (deepskin_results : Response) : bool :=
  match deepskin_results with
  | Success a => wound_detected a
  | Failure _ => false
  end.

Section Client.

Context {W : Type} (sv : Services W) (self : GeminiEnhancer).

Definition model_or_empty : string :=
  match model_name self with
  | Some m => m
  | None => ""
  end.

(** [Image.open] followed by the conversion to RGB when needed. *)
Definition open_rgb (image_bytes : list Z) : exc PilImage :=
  (image <- image_open sv image_bytes ;;
   if String.eqb (mode image) "RGB" then Ok image
   else convert sv image "RGB")%exc.

(** The remote call of one strategy and the dictionary built from its
    outcome; an exception of the call is caught by the strategy. *)
Definition send (strategy : string) (note : option string)
    (contents : list Part) (st : State W) : NarrativeResult * State W :=
  let '(response, w') :=
    generate_content sv (remote st) model_or_empty contents in
  let st' := mkState w' (trace st ++ [Sent strategy model_or_empty contents])%list in
  match response with
  | Ok analysis_text =>
      (Narrative analysis_text model_or_empty strategy (now_isoformat sv w')
         note, st')
  | Raise e => (StrategyFailed e strategy, st')
  end.

(** Strategy 1: the image as JPEG bytes, with the full context. *)
Definition _analyze_with_bytes (image_bytes : list Z)
    (deepskin_results : Response) (st : State W)
    : NarrativeResult * State W :=
  let st := record (Entered "bytes") st in
  match (image <- open_rgb image_bytes ;;
         image <- thumbnail sv image (1024, 1024)%nat ;;
         img_bytes <- save_jpeg sv image ;;
         prompt <- analysis_prompt sv (results_pwat deepskin_results) 0
                     (results_wound_detected deepskin_results)
                     (results_severity deepskin_results) ;;
         Ok [TextPart prompt; BytesPart img_bytes "image/jpeg"])%exc with
  | Ok contents => send "bytes" None contents st
  | Raise e => (StrategyFailed e "bytes", st)
  end.

(** Strategy 2: the PIL image itself, with a shorter prompt. *)
Definition _analyze_with_pil (image_bytes : list Z)
    (deepskin_results : Response) (st : State W)
    : NarrativeResult * State W :=
  let st := record (Entered "pil") st in
  match (image <- open_rgb image_bytes ;;
         image <- thumbnail sv image (1024, 1024)%nat ;;
         prompt <- short_prompt sv (results_pwat deepskin_results)
                     (results_severity deepskin_results) ;;
         Ok [TextPart prompt; ImagePart image])%exc with
  | Ok contents => send "pil" None contents st
  | Raise e => (StrategyFailed e "pil", st)
  end.

(** Strategy 3: a fixed prompt and the image, without any context. *)
Definition _analyze_simple (image_bytes : list Z) (st : State W)
    : NarrativeResult * State W :=
  let st := record (Entered "simple") st in
  match (image <- open_rgb image_bytes ;;
         Ok [TextPart "Describe this wound image. What do you see?";
             ImagePart image])%exc with
  | Ok contents =>
      send "simple" (Some "Analysis without Deepskin context") contents st
  | Raise e => (StrategyFailed e "simple", st)
  end.

(** [not self.available or not self.client or not self.model_name] *)
Definition not_ready : bool :=
  (negb (available self) || negb (client self)
   || match model_name self with
      | Some m => String.eqb m ""
      | None => true
      end)%bool.

Definition analyze_wound (image_bytes : list Z) (deepskin_results : Response)
    (st : State W) : NarrativeResult * State W :=
  if not_ready then
    (Unavailable "Gemini not available" "Check API key and model access"
       (fallback_models self), st)
  else
    let '(result, st1) := _analyze_with_bytes image_bytes deepskin_results st in
    if succeeded result then (result, st1)
    else
      let '(result, st2) :=
        _analyze_with_pil image_bytes deepskin_results st1 in
      if succeeded result then (result, st2)
      else
        let '(result, st3) := _analyze_simple image_bytes st2 in
        if succeeded result then (result, st3)
        else
          (AllFailed "All analysis strategies failed"
             (get_error result "Unknown error"), st3).

End Client.

(** What a run of one strategy leaves behind: a result tagged with the
    strategy, a failure record when it did not succeed, and only events of
    that strategy appended to the trace. *)
Definition strategy_run {W : Type} (tag : string)
    (run : State W -> NarrativeResult * State W) : Prop :=
  forall st r st',
    run st = (r, st') ->
    get_strategy r = Some tag /\
    (succeeded r = false -> exists e, r = StrategyFailed e tag) /\
    exists evs,
      trace st' = (trace st ++ evs)%list /\
      Forall (fun ev => event_strategy ev = tag) evs.

End Gemini.

(* ===================================================================== *)
(** ** Stub collaborators                                                  *)
(* ===================================================================== *)

(** Small executable stand-ins for the libraries, used to run the model on
    concrete inputs.  The toy codec reads a buffer [h :: w :: samples]. *)

Definition toy_imdecode (buf : list Z) : exc (option (Image Z)) :=
  match buf with
  | [] => Raise "cv2.error: (-215:Assertion failed) !buf.empty()"
  | h :: w :: samples =>
      if (Z.of_nat (length samples) =? h * w * 3) && (0 <=? h) && (0 <=? w)
      then Ok (Some (mkImage (Z.to_nat h) (Z.to_nat w) samples))
      else Ok None
  | _ => Ok None
  end.

(** One single-point contour per set pixel, as OpenCV reports isolated
    pixels. *)
Definition toy_findContours (m : Mask) : list Contour :=
  match shape m with
  | [h; w] =>
      flat_map (fun p => if is_set (nth p (data m) 0)
                         then [[(Z.of_nat (p mod w), Z.of_nat (p / w))]]
                         else [])
               (seq 0 (h * w))
  | _ => []
  end.

Definition toy_boundingRect (c : Contour) : Z * Z * Z * Z :=
  match c with
  | [] => (0, 0, 0, 0)
  | (x, y) :: rest =>
      let x0 := fold_right Z.min x (map fst rest) in
      let x1 := fold_right Z.max x (map fst rest) in
      let y0 := fold_right Z.min y (map snd rest) in
      let y1 := fold_right Z.max y (map snd rest) in
      (x0, y0, x1 - x0 + 1, y1 - y0 + 1)
  end.

(** A square root good to three decimals. *)
Definition toy_sqrt (q : Q) : Q :=
  Qmake (Z.sqrt (Qfloor (q * 1000000))) 1000.

Definition toy_cv : Cv2 :=
  {| imdecode := toy_imdecode;
     imencode := fun _ _ samples => Ok samples;
     b64encode := fun buffer => if Nat.eqb (length buffer) 0 then "" else "QUJD";
     findContours := toy_findContours;
     contourArea := fun c => inject_Z (Z.of_nat (length c) - 1);
     arcLength := fun c _ => inject_Z (Z.of_nat (length c) - 1);
     boundingRect := toy_boundingRect;
     contour_stroke := fun _ _ _ _ => false;
     text_stroke := fun _ _ _ _ => false;
     np_sqrt := toy_sqrt |}.

(** Wound where the red sample is at least 200, body where the green one
    is at least 100, background elsewhere. *)
Fixpoint toy_classes (samples : list Z) : list Z :=
  match samples with
  | r :: g :: b :: rest =>
      (if 200 <=? r then [255; 0; 0]
       else if 100 <=? g then [0; 255; 0]
       else [0; 0; 255]) ++ toy_classes rest
  | _ => []
  end%list.

Definition toy_segmentation (rgb : Image Z) : exc (ndarray Z) :=
  if Nat.eqb (height rgb * width rgb) 0 then Raise "empty image"
  else Ok (mkArr [height rgb; width rgb; 3%nat] (toy_classes (pixels rgb))).

(** The ring around the wound: on these tiny rasters a 200 x 200 kernel
    reaches every pixel outside the wound. *)
Definition toy_perilesion (mask : Mask) (ksize : nat * nat) : exc Mask :=
  Ok (mkArr (shape mask)
        (map (fun v => if any_set mask && negb (is_set v) then 255 else 0)
             (data mask))).

Definition toy_features (rgb : Image Z) (mask : Mask) (prefix : string)
    : exc (Dict PyVal) :=
  if any_set mask
  then Ok [(prefix ++ "_area", VInt (count_set mask));
           (prefix ++ "_Mean_red", VFloat (Finite (2001234567 # 10000000)))]
  else Raise "empty mask".

Definition toy_score (rgb : Image Z) (seg : ndarray Z) (ksize : nat * nat)
    : exc pyfloat :=
  if any_set (channel 0 seg) then Ok (Finite 12) else Raise "no wound".

Definition toy_ds : Deepskin :=
  {| wound_segmentation := toy_segmentation;
     get_perilesion_mask := toy_perilesion;
     imfill := fun m => Ok m;
     evaluate_features := toy_features;
     evaluate_PWAT_score := toy_score |}.

(** A 2 x 2 photograph in B, G, R order: one wound pixel, two body pixels,
    one background pixel; and one without any wound pixel. *)
Definition toy_photo : list Z :=
  [2; 2;  10; 10; 250;  20; 120; 20;  20; 130; 20;  5; 5; 5].


(** Stand-ins for PIL and the remote model; the remote state counts the
    requests received.  The model refuses raw bytes, or every request when
    [down]. *)
Definition has_bytes_part (contents : list Gemini.Part) : bool :=
  existsb (fun p => match p with
                    | Gemini.BytesPart _ _ => true
                    | _ => false
                    end) contents.

Definition toy_services (down : bool) : Gemini.Services nat :=
  {| Gemini.image_open := fun b =>
       match b with
       | [] => Raise "cannot identify image file"
       | _ => Ok (Gemini.mkPil "RGB" (1, 1)%nat b)
       end;
     Gemini.convert := fun im m =>
       Ok (Gemini.mkPil m (Gemini.size im) (Gemini.content im));
     Gemini.thumbnail := fun im _ => Ok im;
     Gemini.save_jpeg := fun im => Ok (Gemini.content im);
     Gemini.generate_content := fun w _ contents =>
       (if down then Raise "503 UNAVAILABLE"
        else if has_bytes_part contents then Raise "400 INVALID_ARGUMENT"
        else Ok "Granulation tissue, moist wound bed.", S w);
     Gemini.now_isoformat := fun _ => "2025-01-01T00:00:00";
     Gemini.analysis_prompt := fun _ _ _ severity =>
       Ok ("You are a wound care specialist. Severity: " ++ severity);
     Gemini.short_prompt := fun _ severity =>
       Ok ("Analyze this wound image. Severity: " ++ severity) |}.

Definition toy_client : Gemini.GeminiEnhancer :=
  Gemini.mkEnhancer true true (Some "gemini-1.5-flash")
    ["gemini-2.5-flash-image"; "gemini-1.5-flash"; "gemini-1.5-pro";
     "gemini-pro-vision"].

(** The four rows of the severity table. *)
Definition tier_mild : Severity :=
  mkSeverity "Mild" "#27ae60" "Wound is healing well. Continue current care.".
Definition tier_moderate : Severity :=
  mkSeverity "Moderate" "#f39c12"
    "Active treatment recommended. Monitor closely.".
Definition tier_severe : Severity :=
  mkSeverity "Severe" "#e74c3c"
    "Requires immediate attention. Consider specialist consult.".
Definition tier_very_severe : Severity :=
  mkSeverity "Very Severe" "#c0392b"
    "Critical - seek specialist care immediately.".

(** A 150 x 150 mask with a single set pixel, and two 2 x 2 masks. *)
Definition speck_mask : Mask :=
  mkArr [150; 150]%nat (255 :: repeat 0 (150 * 150 - 1)).
Definition corner_mask : Mask := mkArr [2; 2]%nat [255; 0; 0; 0].
Definition ring_mask : Mask := mkArr [2; 2]%nat [0; 255; 255; 255].

(** A single-channel 2 x 2 segmentation with one wound pixel. *)
Definition mono_segmentation : ndarray Z := mkArr [2; 2]%nat [255; 0; 0; 0].

(** The names of the visualisations, in the order they are written. *)
Definition visualization_names : list string :=
  ["wound_outline"; "combined_outline"; "wound_only"; "heatmap"; "overlay"].

(** What the classifier makes of [example_features], and the Category Map
    with ["redness"] under ["Other"]. *)
Definition example_category_map : Dict (Dict PyVal) :=
  [("Texture", [("contrast_x", VFloat (Finite (12346 # 10000)))]);
   ("Color", [("redness", VStr "high")])].
Definition example_with_other : Dict (Dict PyVal) :=
  [("Texture", [("contrast_x", VFloat (Finite (12346 # 10000)))]);
   ("Other", [("redness", VStr "high")])].

(** The heat map in the words of the specification: one sample of the
    raster alpha-blended with the flat colour of a region, the region
    counting only when its mask is not empty. *)
Definition tinted_sample (mask : Mask) (tint : Q * Q * Q) (opacity : Q)
    (i : nat) (v : Q) : Q :=
  let flat_colour : Q :=
    if is_set (nth (i / 3)%nat (data mask) 0)
    then channel_of tint (i mod 3)%nat else 0%Q in
  if any_set mask then (v * (1 - opacity) + flat_colour * opacity)%Q
  else v.

(** Wound at 0.4, then peri-wound at 0.4, then body at 0.2, then the
    conversion to an 8-bit sample. *)
Definition heatmap_sample (wound peri body : Mask) (i : nat) (v : Z) : Z :=
  clip_sample
    (tinted_sample body (100, 255, 100)%Q (2 # 10) i
       (tinted_sample peri (100, 100, 255)%Q (4 # 10) i
          (tinted_sample wound (255, 100, 100)%Q (4 # 10) i (inject_Z v)))).

(** A 1 x 2 raster with its wound, peri-wound and (empty) body masks. *)
Definition strip_rgb : Image Z := mkImage 1 2 [10; 20; 30; 40; 50; 60].
Definition strip_wound : Mask := mkArr [1; 2]%nat [255; 0].
Definition strip_peri : Mask := mkArr [1; 2]%nat [0; 255].
Definition strip_body : Mask := mkArr [1; 2]%nat [0; 0].

(* ===================================================================== *)
(** ** [DeepskinProcessor.get_feature_summary]                             *)
(* ===================================================================== *)





(* ===================================================================== *)
(** ** The quick summary of [test_full.py]                                 *)
(* ===================================================================== *)

(** Lines 143-152 of [main]: the tier the test client prints. *)
Definition quick_summary_severity (pwat : pyfloat) : string :=
  if float_lt pwat 8 then "MILD"
  else if float_lt pwat 16 then "MODERATE"
  else if float_lt pwat 24 then "SEVERE"
  else "VERY SEVERE".

(** [s.upper()] on ASCII letters. *)
Definition upper_ascii (c : ascii) : ascii :=
  let n := nat_of_ascii c in
  if (Nat.leb 97 n && Nat.leb n 122)%bool then ascii_of_nat (n - 32) else c.

Fixpoint upper (s : string) : string :=
  match s with
  | EmptyString => EmptyString
  | String c rest => String (upper_ascii c) (upper rest)
  end.

(* ===================================================================== *)
(** ** The client life cycle: [GeminiEnhancer.__init__],
       [_initialize_client], [analyze_with_history]                        *)
(* ===================================================================== *)

Module GeminiLife.

Import Gemini.



(** A previous analysis as [analyze_with_history] reads it. *)
Record Previous : Type := mkPrevious {
  prev_pwat : option pyfloat;
  prev_timestamp : option string
}.

(** What [analyze_with_history] returns: its own dictionary, or whatever
    [analyze_wound] returned. *)
Inductive HistoryResult : Type :=
| HistoryNarrative (analysis model_used : string) (with_history : bool)
    (timestamp : string)
| Delegated (result : NarrativeResult).

(** [l[-n:]] for [n > 0] *)
Definition last_n {A : Type} (n : nat) (l : list A) : list A :=
  skipn (length l - n) l.

Section Life.

Context {W : Type} (sv : Services W).

(** [genai.Client(api_key=...)], which may raise, and the formatting of
    the history prompt from the current score and the analyses kept. *)
Context (make_client : string -> exc unit).
Context (history_prompt : option pyfloat -> list Previous -> exc string).

(** One request, recorded in the trace under [tag]. *)
Definition request (tag model : string) (contents : list Part)
    (st : State W) : exc string * State W :=
  let '(response, w') := generate_content sv (remote st) model contents in
  (response, mkState w' (trace st ++ [Sent tag model contents])%list).




Definition analyze_with_history (self : GeminiEnhancer)
    (image_bytes : list Z) (deepskin_results : Response)
    (previous_analyses : list Previous) (st : State W)
    : HistoryResult * State W :=
  if negb (available self) then
    let '(r, st') := analyze_wound sv self image_bytes deepskin_results st in
    (Delegated r, st')
  else
    match (image <- open_rgb sv image_bytes ;;
           prompt <- history_prompt (results_pwat deepskin_results)
                       (last_n 3 previous_analyses) ;;
           Ok [TextPart prompt; ImagePart image])%exc with
    | Raise _ =>
        let '(r, st') := analyze_wound sv self image_bytes deepskin_results st in
        (Delegated r, st')
    | Ok contents =>
        let '(response, st1) :=
          request "history" (model_or_empty self) contents st in
        match response with
        | Ok analysis_text =>
            (HistoryNarrative analysis_text (model_or_empty self)
               (match previous_analyses with [] => false | _ => true end)
               (now_isoformat sv (remote st1)), st1)
        | Raise _ =>
            let '(r, st') :=
              analyze_wound sv self image_bytes deepskin_results st1 in
            (Delegated r, st')
        end
    end.

End Life.

End GeminiLife.

(* ===================================================================== *)
(** ** The endpoint [POST /analyze] of [main.py]                           *)
(* ===================================================================== *)

Record AnalyzeAnswer : Type := mkAnswer {
  answer_filename : string;
  answer_deepskin : Response;
  answer_gemini : option Gemini.NarrativeResult
}.

Definition analyze_endpoint {W : Type} (cv : Cv2) (ds : Deepskin)
    (sv : Gemini.Services W) (gemini : Gemini.GeminiEnhancer)
    (filename : string) (image_bytes : list Z) (st : Gemini.State W)
    : AnalyzeAnswer * Gemini.State W :=
  let deepskin_results := process_image cv ds image_bytes in
  if (Gemini.available gemini && success deepskin_results)%bool then
    let '(gemini_results, st') :=
      Gemini.analyze_wound sv gemini image_bytes deepskin_results st in
    (mkAnswer filename deepskin_results (Some gemini_results), st')
  else (mkAnswer filename deepskin_results None, st).

(** The number of requests in a trace. *)
Definition requests_sent (events : list Gemini.Event) : nat :=
  length (filter (fun ev => match ev with
                            | Gemini.Sent _ _ _ => true
                            | Gemini.Entered _ => false
                            end) events).

(** The body mask of [toy_photo]. *)
Definition toy_body_mask : Mask := mkArr [2; 2]%nat [0; 255; 255; 0].


(** What one strategy does to the trace: it appends its events, among
    them at most one request, exactly one when it succeeds; a success is a
    narrative tagged with the strategy and the pinned model, a failure a
    failure record of the strategy. *)
Definition strategy_requests {W : Type} (self : Gemini.GeminiEnhancer)
    (tag : string)
    (run : Gemini.State W -> Gemini.NarrativeResult * Gemini.State W)
    : Prop :=
  forall st r st',
    run st = (r, st') ->
    exists evs,
      Gemini.trace st' = (Gemini.trace st ++ evs)%list /\
      (requests_sent evs <= 1)%nat /\
      (Gemini.succeeded r = true ->
       requests_sent evs = 1%nat /\
       exists text timestamp note,
         r = Gemini.Narrative text (Gemini.model_or_empty self) tag
               timestamp note) /\
      (Gemini.succeeded r = false ->
       exists e, r = Gemini.StrategyFailed e tag).

(* ===================================================================== *)
(** * Properties                                                           *)
(* ===================================================================== *)

(** ** Severity mapper *)

Lemma float_lt_finite (q c : Q) : float_lt (Finite q) c = true <-> (q < c)%Q.
Proof.
  unfold float_lt. rewrite negb_true_iff.
  split; intro H.
  - apply Qnot_le_lt. intro Hle. apply Qle_bool_iff in Hle. congruence.
  - destruct (Qle_bool c q) eqn:E; [|reflexivity].
    apply Qle_bool_iff in E. exfalso. apply (Qlt_not_le _ _ H E).
Qed.

Lemma float_lt_finite_false (q c : Q) :
  float_lt (Finite q) c = false <-> (c <= q)%Q.
Proof.
  unfold float_lt. rewrite negb_false_iff. apply Qle_bool_iff.
Qed.

(** The tier of a finite score, by cases on the three thresholds. *)
Lemma severity_cases (s : Q) :
  ((s < 8)%Q /\ _get_severity_level (Finite s) = tier_mild) \/
  ((8 <= s)%Q /\ (s < 16)%Q /\ _get_severity_level (Finite s) = tier_moderate) \/
  ((16 <= s)%Q /\ (s < 24)%Q /\ _get_severity_level (Finite s) = tier_severe) \/
  ((24 <= s)%Q /\ _get_severity_level (Finite s) = tier_very_severe).
Proof.
  unfold _get_severity_level.
  destruct (float_lt (Finite s) 8) eqn:E8.
  { left. split; [apply float_lt_finite, E8 | reflexivity]. }
  apply float_lt_finite_false in E8.
  destruct (float_lt (Finite s) 16) eqn:E16.
  { right; left. repeat split; [exact E8 | apply float_lt_finite, E16]. }
  apply float_lt_finite_false in E16.
  destruct (float_lt (Finite s) 24) eqn:E24.
  { right; right; left.
    repeat split; [exact E16 | apply float_lt_finite, E24]. }
  apply float_lt_finite_false in E24.
  right; right; right. split; [exact E24 | reflexivity].
Qed.

(** C2: on real scores the severity mapper is total and monotonic, and the
    four tiers Mild, Moderate, Severe, Very Severe (each with its fixed
    colour and description) are exactly the scores below 8, from 8 to below
    16, from 16 to below 24, and from 24 upwards. *)
Theorem severity_tiers_partition (s : Q) :
  (_get_severity_level (Finite s) = tier_mild <-> (s < 8)%Q) /\
  (_get_severity_level (Finite s) = tier_moderate <-> (8 <= s /\ s < 16)%Q) /\
  (_get_severity_level (Finite s) = tier_severe <-> (16 <= s /\ s < 24)%Q) /\
  (_get_severity_level (Finite s) = tier_very_severe <-> (24 <= s)%Q) /\
  (forall t : Q, (s <= t)%Q ->
     (tier_rank (_get_severity_level (Finite s))
      <= tier_rank (_get_severity_level (Finite t)))%nat).
Proof.
  assert (tier_of_s := severity_cases s).
  split; [|split; [|split; [|split]]].
  1-4: split; intro H;
    destruct tier_of_s as [[? E]|[[? [? E]]|[[? [? E]]|[? E]]]];
    try (rewrite E in H; discriminate H);
    try exact E; try (split; assumption); try assumption;
    exfalso; lra.
  intros t Hst.
  destruct tier_of_s as [[? E]|[[? [? E]]|[[? [? E]]|[? E]]]];
    destruct (severity_cases t) as [[? F]|[[? [? F]]|[[? [? F]]|[? F]]]];
    rewrite E, F; cbn; try lia; exfalso; lra.
Qed.

(** ** Rounding *)

Lemma round_half_even_bounds (q : Q) :
  (inject_Z (round_half_even q) - (1 # 2) <= q)%Q /\
  (q <= inject_Z (round_half_even q) + (1 # 2))%Q.
Proof.
  unfold round_half_even. cbv zeta.
  pose proof (Qfloor_le q) as Hlo.
  pose proof (Qlt_floor q) as Hhi.
  rewrite inject_Z_plus in Hhi.
  set (f := Qfloor q) in *. clearbody f.
  change (inject_Z 1) with 1%Q in Hhi.
  destruct (Qcompare (q - inject_Z f) (1 # 2)) eqn:E.
  - apply Qeq_alt in E.
    destruct (Z.even f); rewrite ?inject_Z_plus;
      change (inject_Z 1) with 1%Q; split; lra.
  - apply Qlt_alt in E. split; lra.
  - apply Qgt_alt in E. rewrite inject_Z_plus.
    change (inject_Z 1) with 1%Q. split; lra.
Qed.

(** The percentage is [k / 100] for the integer [k] nearest to
    [10000 * pixels / total_pixels]. *)
Lemma area_percentage_nearest (p t : Z) :
  0 < t ->
  exists k : Z,
    area_percentage p t = Qmake k 100 /\
    2 * 10000 * p - t <= 2 * k * t <= 2 * 10000 * p + t.
Proof.
  intros Ht. unfold area_percentage.
  destruct (Z.ltb_spec 0 t) as [_|]; [|lia].
  unfold py_round.
  change (Z.to_pos (10 ^ Z.of_nat 2)) with 100%positive.
  change (inject_Z (10 ^ Z.of_nat 2)) with (inject_Z 100).
  set (y := (inject_Z p / inject_Z t * 100 * inject_Z 100)%Q).
  exists (round_half_even y). split; [reflexivity|].
  destruct (round_half_even_bounds y) as [Hlo Hhi].
  set (k := round_half_even y) in *. clearbody k.
  subst y. destruct t as [|t'|t']; try lia.
  unfold Qle, Qminus, Qplus, Qopp, Qdiv, Qmult, Qinv, inject_Z in Hlo, Hhi.
  cbn [Qnum Qden] in Hlo, Hhi.
  lia.
Qed.

Lemma count_set_bounds (m : Mask) :
  0 <= count_set m <= Z.of_nat (length (data m)).
Proof.
  unfold count_set.
  pose proof (filter_length_le is_set (data m)). lia.
Qed.

Lemma count_set_zero_iff (m : Mask) :
  count_set m = 0 <-> any_set m = false.
Proof.
  unfold count_set, any_set.
  induction (data m) as [|v l IH]; cbn; [tauto|].
  destruct (is_set v); cbn; [|exact IH].
  split; [lia | discriminate].
Qed.

Lemma any_set_iff (m : Mask) :
  any_set m = true <-> exists v, In v (data m) /\ 0 < v.
Proof.
  unfold any_set. rewrite existsb_exists.
  split; intros [v [Hin Hv]]; exists v; split; auto;
    unfold is_set in *; lia.
Qed.

Lemma metrics_wound_percentage (cv : Cv2) (wound peri : Mask) (h w c : nat) :
  wound_area_percentage (_calculate_wound_metrics cv wound peri (h, w, c)) =
  area_percentage (count_set wound) (Z.of_nat h * Z.of_nat w).
Proof.
  unfold _calculate_wound_metrics.
  destruct (contour_geometry cv (count_set wound) (findContours cv wound))
    as [[perimeter diameter] [[[x y] bw] bh]].
  reflexivity.
Qed.

(** ** Geometric metrics: the area percentage *)

(** C4 (as amended): for a mask with the dimensions of the frame the
    wound-area percentage lies in [0, 100]; it is 0 when the mask has no
    set pixel and when the frame has zero area; because the value is
    rounded to two decimals it is also 0 for every mask whose set pixels
    number less than 1/20000 of the frame, and a percentage of 0 bounds
    the count by 1/20000 of the frame. *)
Theorem wound_percentage_range (cv : Cv2) (wound peri : Mask) (h w c : nat) :
  shape wound = [h; w] ->
  well_formed wound ->
  let pct :=
    wound_area_percentage (_calculate_wound_metrics cv wound peri (h, w, c)) in
  let n := count_set wound in
  let total := Z.of_nat h * Z.of_nat w in
  (0 <= pct)%Q /\ (pct <= 100)%Q /\
  (n = 0 -> (pct == 0)%Q) /\
  (total = 0 -> (pct == 0)%Q) /\
  (20000 * n < total -> (pct == 0)%Q) /\
  ((pct == 0)%Q -> 20000 * n <= total).
Proof.
  intros Hshape Hwf pct n total.
  assert (Hn : 0 <= n <= total).
  { subst n total. pose proof (count_set_bounds wound) as Hb.
    unfold well_formed in Hwf. rewrite Hshape in Hwf. cbn in Hwf.
    rewrite Hwf in Hb. lia. }
  subst pct. rewrite metrics_wound_percentage. fold n total.
  destruct (Z.eq_dec total 0) as [Hz|Hnz].
  - assert (n = 0) by lia.
    assert (Hp : area_percentage n total = 0%Q)
      by (unfold area_percentage; rewrite Hz; reflexivity).
    rewrite Hp. unfold Qle, Qeq. cbn [Qnum Qden].
    repeat split; intros; lia.
  - destruct (area_percentage_nearest n total) as [k [Hk Hnear]]; [lia|].
    rewrite Hk. unfold Qle, Qeq. cbn [Qnum Qden].
    repeat split; intros; nia.
Qed.

(** A single set pixel in a 150 x 150 frame: the percentage is 0 although
    the mask is not empty. *)
Lemma speck_percentage_is_zero :
  (shape speck_mask = [150; 150]%nat /\ well_formed speck_mask) /\
  count_set speck_mask = 1 /\
  (wound_area_percentage
     (_calculate_wound_metrics toy_cv speck_mask speck_mask
        (150, 150, 3)%nat) == 0)%Q /\
  ~ ((wound_area_percentage
        (_calculate_wound_metrics toy_cv speck_mask speck_mask
           (150, 150, 3)%nat) == 0)%Q
     <-> count_set speck_mask = 0).
Proof.
  assert (Hc : count_set speck_mask = 1) by (vm_compute; reflexivity).
  assert (Hp : (wound_area_percentage
                  (_calculate_wound_metrics toy_cv speck_mask speck_mask
                     (150, 150, 3)%nat) == 0)%Q).
  { rewrite metrics_wound_percentage, Hc. vm_compute. reflexivity. }
  assert (Hwf : well_formed speck_mask).
  { unfold well_formed, speck_mask. cbn [data shape numel fold_right length].
    rewrite repeat_length. lia. }
  split; [split; [reflexivity | exact Hwf]|].
  split; [exact Hc|]. split; [exact Hp|].
  intros [Hfwd _]. specialize (Hfwd Hp). rewrite Hc in Hfwd. discriminate.
Qed.

Lemma wound_percentage_range_witness :
  (wound_area_percentage
     (_calculate_wound_metrics toy_cv corner_mask ring_mask (2, 2, 3)%nat)
   <= 100)%Q.
Proof.
  exact (proj1 (proj2 (wound_percentage_range toy_cv corner_mask ring_mask
                         2 2 3 eq_refl eq_refl))).
Defined.

(** ** Geometric metrics: the main contour *)

Lemma max_from_first_maximum {A : Type} (key : A -> Q) (l : list A) :
  forall best : A,
  exists pre post : list A,
    (best :: l = pre ++ max_from key best l :: post)%list /\
    (forall x, In x pre -> (key x < key (max_from key best l))%Q) /\
    (forall x, In x post -> (key x <= key (max_from key best l))%Q).
Proof.
  induction l as [|x t IH]; intros best.
  - exists [], []. cbn. repeat split; intros ? [].
  - cbn [max_from]. destruct (Qle_bool (key x) (key best)) eqn:E.
    + apply Qle_bool_iff in E.
      destruct (IH best) as [pre [post [Heq [Hpre Hpost]]]].
      destruct pre as [|b pre'].
      * cbn in Heq. injection Heq as Hb Ht.
        exists [], (x :: post). rewrite <- Hb in *. cbn.
        repeat split.
        -- congruence.
        -- intros ? [].
        -- intros y [<-|Hy]; [exact E | apply Hpost, Hy].
      * cbn in Heq. injection Heq as Hb Ht. subst b.
        exists (best :: x :: pre'), post. cbn.
        repeat split.
        -- congruence.
        -- intros y [<-|[<-|Hy]].
           ++ apply Hpre. left. reflexivity.
           ++ eapply Qle_lt_trans; [exact E|]. apply Hpre. left. reflexivity.
           ++ apply Hpre. right. exact Hy.
        -- exact Hpost.
    + assert (Hlt : (key best < key x)%Q).
      { apply Qnot_le_lt. intro Hle. apply Qle_bool_iff in Hle. congruence. }
      destruct (IH x) as [pre [post [Heq [Hpre Hpost]]]].
      exists (best :: pre), post. cbn.
      repeat split.
      * congruence.
      * intros y [<-|Hy]; [|apply Hpre, Hy].
        destruct pre as [|b pre'].
        -- cbn in Heq. injection Heq as Hb _. rewrite <- Hb. exact Hlt.
        -- cbn in Heq. injection Heq as Hb _. subst b.
           eapply Qlt_trans; [exact Hlt|]. apply Hpre. left. reflexivity.
      * exact Hpost.
Qed.

(** C8: without external contours the perimeter, the estimated diameter
    and the bounding box are zero; otherwise the main contour is the first
    contour of maximal enclosed area, the perimeter is its closed arc
    length, its bounding rectangle is the box, and the diameter is
    [2 * sqrt (n / pi)] for the number [n] of set pixels of the mask,
    whatever the area of the contour.  The record reports the perimeter
    through [int] and the diameter through [round(_, 2)]. *)
Theorem contour_metrics (cv : Cv2) (wound peri : Mask) (shp : nat * nat * nat) :
  let contours := findContours cv wound in
  let n := count_set wound in
  let m := _calculate_wound_metrics cv wound peri shp in
  (contours = [] ->
     contour_geometry cv n contours = (0%Q, 0%Q, (0, 0, 0, 0)) /\
     wound_perimeter_pixels m = 0 /\
     (estimated_diameter_pixels m == 0)%Q /\
     bounding_box m = mkBox 0 0 0 0) /\
  (contours <> [] ->
     exists (main : Contour) (pre post : list Contour) (diameter : Q),
       contours = (pre ++ main :: post)%list /\
       (forall c, In c pre -> (contourArea cv c < contourArea cv main)%Q) /\
       (forall c, In c post -> (contourArea cv c <= contourArea cv main)%Q) /\
       (0 < n -> diameter = (2 * np_sqrt cv (inject_Z n / np_pi))%Q) /\
       (n = 0 -> diameter = 0%Q) /\
       contour_geometry cv n contours =
         (arcLength cv main true, diameter, boundingRect cv main) /\
       wound_perimeter_pixels m = py_int (arcLength cv main true) /\
       estimated_diameter_pixels m = py_round diameter 2 /\
       bounding_box m =
         (let '(x, y, box_w, box_h) := boundingRect cv main in
          mkBox box_w box_h x y)).
Proof.
  intros contours n m. subst m. unfold _calculate_wound_metrics.
  destruct shp as [[h w] c]. fold n. fold contours.
  split.
  - intros Hnil. rewrite Hnil. cbn.
    repeat split; reflexivity.
  - intros Hne. destruct contours as [|c0 rest] eqn:Hc; [congruence|].
    destruct (max_from_first_maximum (contourArea cv) rest c0)
      as [pre [post [Heq [Hpre Hpost]]]].
    set (main := max_from (contourArea cv) c0 rest) in *.
    exists main, pre, post,
      (if 0 <? n then (2 * np_sqrt cv (inject_Z n / np_pi))%Q else 0%Q).
    assert (Hgeo : contour_geometry cv n (c0 :: rest) =
                   (arcLength cv main true,
                    (if 0 <? n then (2 * np_sqrt cv (inject_Z n / np_pi))%Q
                     else 0%Q),
                    boundingRect cv main)) by reflexivity.
    rewrite Hgeo.
    destruct (boundingRect cv main) as [[[x y] bw] bh].
    repeat split; try assumption.
    + intros Hpos. destruct (Z.ltb_spec 0 n); [reflexivity | lia].
    + intros Hz. rewrite Hz. reflexivity.
Qed.

(** ** The processor: inversion of a run *)

Lemma process_image_decoded (cv : Cv2) (ds : Deepskin) (image_bytes : list Z)
    (bgr : Image Z) (segmentation : ndarray Z) :
  imdecode cv image_bytes = Ok (Some bgr) ->
  wound_segmentation ds (cvtColor bgr) = Ok segmentation ->
  process_image cv ds image_bytes =
  Success (analysis_of cv ds (cvtColor bgr)
             (_image_to_base64 cv (cvtColor bgr)) segmentation).
Proof.
  intros Hdec Hseg. unfold process_image, process_image_body.
  rewrite Hdec. cbn. rewrite Hseg. reflexivity.
Qed.

Lemma process_image_success_inv (cv : Cv2) (ds : Deepskin)
    (image_bytes : list Z) (a : Analysis) :
  process_image cv ds image_bytes = Success a ->
  exists (bgr : Image Z) (segmentation : ndarray Z),
    imdecode cv image_bytes = Ok (Some bgr) /\
    wound_segmentation ds (cvtColor bgr) = Ok segmentation /\
    a = analysis_of cv ds (cvtColor bgr)
          (_image_to_base64 cv (cvtColor bgr)) segmentation.
Proof.
  unfold process_image, process_image_body.
  destruct (imdecode cv image_bytes) as [[bgr|]|e] eqn:Hdec; cbn;
    try discriminate.
  destruct (wound_segmentation ds (cvtColor bgr)) as [seg|e] eqn:Hseg; cbn;
    try discriminate.
  intros H. injection H as <-. exists bgr, seg. auto.
Qed.

(** The fields of [analysis_of] in terms of the masks of the split. *)
Lemma analysis_of_fields (cv : Cv2) (ds : Deepskin) (rgb : Image Z)
    (b64 : string) (segmentation : ndarray Z) :
  let wound := fst (fst (split_masks segmentation)) in
  let body := snd (fst (split_masks segmentation)) in
  analysis_of cv ds rgb b64 segmentation =
  compile_results cv rgb b64 segmentation wound
    (peri_wound_stage ds wound body) body
    (features_stage ds rgb wound) (score_stage ds rgb segmentation).
Proof.
  unfold analysis_of.
  destruct (split_masks segmentation) as [[wound body] bg]. reflexivity.
Qed.

Lemma metrics_wound_pixels (cv : Cv2) (wound peri : Mask)
    (shp : nat * nat * nat) :
  wound_area_pixels (_calculate_wound_metrics cv wound peri shp) =
  count_set wound.
Proof.
  unfold _calculate_wound_metrics. destruct shp as [[h w] c].
  destruct (contour_geometry cv (count_set wound) (findContours cv wound))
    as [[perimeter diameter] [[[x y] bw] bh]].
  reflexivity.
Qed.

(** Samples of a mask made by [astype_uint8] are bytes, so a sample is set
    exactly when it is not zero. *)
Lemma astype_uint8_range (a : ndarray Z) (v : Z) :
  In v (data (astype_uint8 a)) -> 0 <= v < 256.
Proof.
  unfold astype_uint8. cbn. rewrite in_map_iff. intros [u [<- _]].
  apply Z.mod_pos_bound. lia.
Qed.

Lemma split_masks_wound_range (segmentation : ndarray Z) (v : Z) :
  In v (data (fst (fst (split_masks segmentation)))) -> 0 <= v < 256.
Proof.
  unfold split_masks.
  destruct (Nat.eqb (length (shape segmentation)) 3
            && Nat.leb 2 (nth 2 (shape segmentation) 0%nat))%bool;
    cbn [fst snd]; apply astype_uint8_range.
Qed.

(** ** The wound-detected flag *)

(** C10: in a successful result the flag [wound_detected] holds exactly
    when the wound mask has a non-zero pixel, which is exactly when
    [raw.wound_area_pixels] is positive; and [raw.wound_area_pixels] is the
    [wound_area_pixels] of the metrics, both the count of set pixels of the
    same wound mask. *)
Theorem wound_detected_consistent (cv : Cv2) (ds : Deepskin)
    (image_bytes : list Z) (a : Analysis) :
  process_image cv ds image_bytes = Success a ->
  exists (bgr : Image Z) (segmentation : ndarray Z),
    imdecode cv image_bytes = Ok (Some bgr) /\
    wound_segmentation ds (cvtColor bgr) = Ok segmentation /\
    let wound := fst (fst (split_masks segmentation)) in
    (wound_detected a = true <-> exists v, In v (data wound) /\ v <> 0) /\
    (wound_detected a = true <-> 0 < raw_wound_area_pixels (raw a)) /\
    raw_wound_area_pixels (raw a) = wound_area_pixels (wound_metrics a) /\
    raw_wound_area_pixels (raw a) = count_set wound.
Proof.
  intros Hrun.
  destruct (process_image_success_inv cv ds image_bytes a Hrun)
    as [bgr [seg [Hdec [Hseg Ha]]]].
  exists bgr, seg. split; [exact Hdec|]. split; [exact Hseg|].
  rewrite analysis_of_fields in Ha. cbv zeta in Ha.
  set (wound := fst (fst (split_masks seg))) in *.
  subst a. unfold compile_results. cbn [wound_detected raw wound_metrics
                                         raw_wound_area_pixels].
  rewrite metrics_wound_pixels.
  repeat split.
  - intros Hany. apply any_set_iff in Hany. destruct Hany as [v [Hin Hv]].
    exists v. split; [exact Hin | lia].
  - intros [v [Hin Hv]]. apply any_set_iff. exists v. split; [exact Hin|].
    pose proof (split_masks_wound_range seg v Hin). lia.
  - intros Hany. pose proof (count_set_bounds wound).
    destruct (Z.eq_dec (count_set wound) 0) as [Hz|]; [|lia].
    apply count_set_zero_iff in Hz. congruence.
  - intros Hpos. destruct (any_set wound) eqn:E; [reflexivity|].
    apply count_set_zero_iff in E. lia.
Qed.

Lemma wound_detected_consistent_witness :
  exists a : Analysis,
    process_image toy_cv toy_ds toy_photo = Success a /\
    (wound_detected a = true <-> 0 < raw_wound_area_pixels (raw a)) /\
    raw_wound_area_pixels (raw a) = wound_area_pixels (wound_metrics a).
Proof.
  pose proof (process_image_decoded toy_cv toy_ds toy_photo
                (mkImage 2 2 [10; 10; 250; 20; 120; 20; 20; 130; 20; 5; 5; 5])
                (mkArr [2; 2; 3]%nat
                   [255; 0; 0; 0; 255; 0; 0; 255; 0; 0; 0; 255])
                eq_refl eq_refl) as Hrun.
  destruct (wound_detected_consistent toy_cv toy_ds toy_photo _ Hrun)
    as [bgr [seg [_ [_ [_ [Hflag [Hraw _]]]]]]].
  eexists. split; [exact Hrun|]. split; [exact Hflag | exact Hraw].
Defined.

(** ** The mask split and the peri-wound stage *)

Lemma all_zero_zeros_like (a : ndarray Z) : all_zero (zeros_like a) = true.
Proof.
  unfold all_zero, zeros_like. cbn.
  induction (length (data a)) as [|n IH]; cbn; auto.
Qed.

Lemma any_set_zeros_like (a : ndarray Z) : any_set (zeros_like a) = false.
Proof.
  unfold any_set, zeros_like. cbn.
  induction (length (data a)) as [|n IH]; cbn; auto.
Qed.


Lemma split_masks_single_channel (segmentation : ndarray Z) :
  (channels segmentation < 2)%nat ->
  split_masks segmentation =
  (astype_uint8 segmentation, zeros_like (astype_uint8 segmentation),
   zeros_like (astype_uint8 segmentation)).
Proof.
  unfold channels, split_masks. intros Hc.
  destruct (shape segmentation) as [|h [|w [|c [|x rest]]]]; cbn; try reflexivity.
  destruct c as [|[|c]]; [reflexivity | reflexivity | lia].
Qed.

(** C5 (as amended): a segmentation with fewer than two channels is taken
    as the wound mask; the body and background masks are all zeros; the
    peri-wound mask is what the peri-lesion collaborator answers for the
    wound mask, not refined by any body silhouette, and all zeros only when
    that collaborator raises.  Nothing is raised. *)
Theorem single_channel_masks (ds : Deepskin) (segmentation : ndarray Z) :
  (channels segmentation < 2)%nat ->
  let wound := fst (fst (split_masks segmentation)) in
  let body := snd (fst (split_masks segmentation)) in
  let bg := snd (split_masks segmentation) in
  wound = astype_uint8 segmentation /\
  body = zeros_like wound /\ all_zero body = true /\
  bg = zeros_like wound /\ all_zero bg = true /\
  peri_wound_stage ds wound body =
    match get_perilesion_mask ds wound (200, 200)%nat with
    | Ok ring => ring
    | Raise _ => zeros_like wound
    end.
Proof.
  intros Hc. rewrite (split_masks_single_channel segmentation Hc).
  cbn [fst snd]. repeat split; try apply all_zero_zeros_like.
  unfold peri_wound_stage, peri_wound_try.
  rewrite any_set_zeros_like.
  destruct (get_perilesion_mask ds (astype_uint8 segmentation) (200, 200)%nat);
    reflexivity.
Qed.

Lemma single_channel_masks_witness :
  peri_wound_stage toy_ds (fst (fst (split_masks mono_segmentation)))
    (snd (fst (split_masks mono_segmentation))) = ring_mask.
Proof.
  exact (proj2 (proj2 (proj2 (proj2 (proj2
           (single_channel_masks toy_ds mono_segmentation
              (le_n 2))))))).
Defined.

(** A single-channel segmentation whose peri-wound mask is not zero: the
    three pixels around the wound pixel are set. *)
Lemma single_channel_peri_not_zero :
  (channels mono_segmentation < 2)%nat /\
  peri_wound_stage toy_ds (fst (fst (split_masks mono_segmentation)))
    (snd (fst (split_masks mono_segmentation))) = ring_mask /\
  all_zero (peri_wound_stage toy_ds (fst (fst (split_masks mono_segmentation)))
              (snd (fst (split_masks mono_segmentation)))) = false.
Proof.
  split; [cbn; lia|]. split; vm_compute; reflexivity.
Qed.

(** ** Error handling of [process_image] *)





(** ** Failure of the score evaluation *)



(** ** Feature classifier *)

Lemma prefix_append (needle hay : string) :
  String.prefix needle hay = true <-> exists rest, hay = needle ++ rest.
Proof.
  revert hay. induction needle as [|a needle IH]; intros hay.
  - destruct hay; cbn; split; intros; eauto.
  - destruct hay as [|b hay]; cbn.
    + split; [discriminate | intros [rest H]; discriminate].
    + destruct (ascii_dec a b) as [->|Hne].
      * rewrite IH. split; intros [rest H]; exists rest; congruence.
      * split; [discriminate | intros [rest H]; congruence].
Qed.

(** [contains] is the substring test. *)
Lemma contains_substring (needle hay : string) :
  contains needle hay = true <->
  exists before after, hay = before ++ needle ++ after.
Proof.
  induction hay as [|c hay IH]; cbn [contains].
  - rewrite prefix_append. split.
    + intros [rest H]. exists "", rest. exact H.
    + intros [before [after H]]. destruct before; cbn in H.
      * exists after. exact H.
      * discriminate.
  - rewrite orb_true_iff, prefix_append, IH. split.
    + intros [[rest H]|[before [after H]]].
      * exists "", rest. exact H.
      * exists (String c before), after. cbn. congruence.
    + intros [before [after H]]. destruct before as [|b before]; cbn in H.
      * left. exists after. exact H.
      * right. exists before, after. congruence.
Qed.

(** The priority order of the if/elif chain. *)
Lemma categorize_priority (key : string) :
  let k := lower key in
  let intensity :=
    (contains "mean" k || contains "std" k || contains "intensity" k)%bool in
  (categorize key = Texture <-> any_in texture_keys k = true) /\
  (categorize key = Color <->
     any_in texture_keys k = false /\ any_in color_keys k = true) /\
  (categorize key = Morphology <->
     any_in texture_keys k = false /\ any_in color_keys k = false /\
     any_in morphology_keys k = true) /\
  (categorize key = Intensity <->
     any_in texture_keys k = false /\ any_in color_keys k = false /\
     any_in morphology_keys k = false /\ intensity = true) /\
  (categorize key = Other <->
     any_in texture_keys k = false /\ any_in color_keys k = false /\
     any_in morphology_keys k = false /\ intensity = false).
Proof.
  cbv zeta. unfold categorize.
  destruct (any_in texture_keys (lower key));
    destruct (any_in color_keys (lower key));
    destruct (any_in morphology_keys (lower key));
    destruct (contains "mean" (lower key) || contains "std" (lower key)
              || contains "intensity" (lower key))%bool;
    repeat split; intros; try discriminate; try reflexivity;
    repeat match goal with H : _ /\ _ |- _ => destruct H end;
    discriminate.
Qed.

Lemma any_in_match (keys : list string) (k : string) :
  any_in keys k = true <->
  exists t before after, In t keys /\ k = before ++ t ++ after.
Proof.
  unfold any_in. rewrite existsb_exists. split.
  - intros [t [Hin Hc]]. apply contains_substring in Hc.
    destruct Hc as [before [after H]]. exists t, before, after. auto.
  - intros [t [before [after [Hin H]]]]. exists t. split; [exact Hin|].
    apply contains_substring. eauto.
Qed.

Lemma dict_get_set_same {V : Type} (key : string) (val : V) (d : Dict V) :
  dict_get key (dict_set key val d) = Some val.
Proof.
  induction d as [|[k v] d IH]; cbn.
  - rewrite String.eqb_refl. reflexivity.
  - destruct (String.eqb k key) eqn:E; cbn; rewrite E; auto.
Qed.

Lemma dict_get_set_other {V : Type} (key key' : string) (val : V)
    (d : Dict V) :
  key <> key' -> dict_get key' (dict_set key val d) = dict_get key' d.
Proof.
  intros Hne. induction d as [|[k v] d IH]; cbn.
  - destruct (String.eqb_spec key key'); [contradiction | reflexivity].
  - destruct (String.eqb_spec k key) as [->|Hk]; cbn.
    + destruct (String.eqb_spec key key'); [contradiction | reflexivity].
    + rewrite IH. reflexivity.
Qed.

Lemma categories_get_set (c c' : Category) (key : string) (val : PyVal)
    (cats : Categories) :
  categories_get c' (categories_set c key val cats) =
  if match c, c' with
     | Texture, Texture | Color, Color | Morphology, Morphology
     | Intensity, Intensity | Other, Other => true
     | _, _ => false
     end
  then dict_set key val (categories_get c' cats)
  else categories_get c' cats.
Proof. destruct c, c'; reflexivity. Qed.

(** One step of the loop leaves the other keys where they are. *)
Lemma classify_step_other (c : Category) (k key : string) (v : PyVal)
    (cats : Categories) :
  k <> key ->
  dict_get key (categories_get c (categories_set (categorize k) k v cats)) =
  dict_get key (categories_get c cats).
Proof.
  intros Hne. rewrite categories_get_set.
  destruct (categorize k), c; try reflexivity;
    apply dict_get_set_other; exact Hne.
Qed.

Lemma classify_fold_other (features : Dict PyVal) :
  forall (cats : Categories) (c : Category) (key : string),
  ~ In key (map fst features) ->
  dict_get key
    (categories_get c
       (fold_left
          (fun cats kv => categories_set (categorize (fst kv)) (fst kv)
                            (normalize_value (snd kv)) cats)
          features cats)) =
  dict_get key (categories_get c cats).
Proof.
  induction features as [|[k v] rest IH]; intros cats c key Hnot; cbn.
  - reflexivity.
  - cbn in Hnot. rewrite IH by tauto.
    apply classify_step_other. tauto.
Qed.

Lemma classify_fold_placed (features : Dict PyVal) :
  forall (cats : Categories) (key : string) (val : PyVal),
  NoDup (map fst features) ->
  In (key, val) features ->
  dict_get key
    (categories_get (categorize key)
       (fold_left
          (fun cats kv => categories_set (categorize (fst kv)) (fst kv)
                            (normalize_value (snd kv)) cats)
          features cats)) =
  Some (normalize_value val).
Proof.
  induction features as [|[k v] rest IH]; intros cats key val Hnd Hin.
  - destruct Hin.
  - cbn in Hnd. inversion Hnd as [|? ? Hfresh Hnd']; subst.
    destruct Hin as [Heq|Hin].
    + injection Heq as -> ->. cbn [fold_left fst snd].
      rewrite classify_fold_other by exact Hfresh.
      rewrite categories_get_set.
      destruct (categorize key); apply dict_get_set_same.
    + cbn [fold_left]. apply IH; assumption.
Qed.

Lemma drop_empty_get (c : Category) (cats : Categories) :
  categories_get c cats <> [] ->
  dict_get (category_name c) (drop_empty cats) = Some (categories_get c cats).
Proof.
  unfold drop_empty, all_categories.
  destruct cats as [t co m i o].
  destruct c; cbn [categories_get]; intros Hne;
    destruct t, co, m, i, o; cbn in Hne |- *; try congruence; reflexivity.
Qed.

(** Every feature of a Feature Map lands, normalised, in the sub-dict of
    the category its name selects. *)
Lemma format_features_placed (features : Dict PyVal) (key : string)
    (val : PyVal) :
  NoDup (map fst features) ->
  In (key, val) features ->
  exists entries : Dict PyVal,
    dict_get (category_name (categorize key)) (_format_features features)
      = Some entries /\
    dict_get key entries = Some (normalize_value val).
Proof.
  intros Hnd Hin.
  pose proof (classify_fold_placed features empty_categories key val Hnd Hin)
    as Hplaced.
  fold (classify_all features) in Hplaced.
  exists (categories_get (categorize key) (classify_all features)).
  split; [|exact Hplaced].
  destruct features as [|kv rest]; [destruct Hin|].
  unfold _format_features. apply drop_empty_get.
  intros Hnil. rewrite Hnil in Hplaced. discriminate.
Qed.

Lemma lower_ascii_idempotent (c : ascii) :
  lower_ascii (lower_ascii c) = lower_ascii c.
Proof.
  destruct c as [[] [] [] [] [] [] [] []]; reflexivity.
Qed.

Lemma lower_idempotent (s : string) : lower (lower s) = lower s.
Proof.
  induction s as [|c s IH]; cbn; [reflexivity|].
  rewrite lower_ascii_idempotent, IH. reflexivity.
Qed.

(** C3 (as amended): the Feature Map of the example is classified as
    [{"Texture": {"contrast_x": 1.2346}, "Color": {"redness": "high"}}],
    since the name "redness" contains the colour keyword "red".  In
    general a feature name is matched without regard to case, by
    substring, against the texture, colour, morphology and intensity
    keywords in this order, the first match wins, and a name without match
    is filed under Other; every feature of the map appears, normalised,
    under the category of its name. *)
Theorem format_features_classifies :
  _format_features example_features = example_category_map /\
  (forall key : string,
     categorize key = categorize (lower key) /\
     let k := lower key in
     let intensity :=
       (contains "mean" k || contains "std" k || contains "intensity" k)%bool in
     (categorize key = Texture <-> any_in texture_keys k = true) /\
     (categorize key = Color <->
        any_in texture_keys k = false /\ any_in color_keys k = true) /\
     (categorize key = Morphology <->
        any_in texture_keys k = false /\ any_in color_keys k = false /\
        any_in morphology_keys k = true) /\
     (categorize key = Intensity <->
        any_in texture_keys k = false /\ any_in color_keys k = false /\
        any_in morphology_keys k = false /\ intensity = true) /\
     (categorize key = Other <->
        any_in texture_keys k = false /\ any_in color_keys k = false /\
        any_in morphology_keys k = false /\ intensity = false)) /\
  (forall (keys : list string) (k : string),
     any_in keys k = true <->
     exists t before after, In t keys /\ k = before ++ t ++ after) /\
  (forall (features : Dict PyVal) (key : string) (val : PyVal),
     NoDup (map fst features) ->
     In (key, val) features ->
     exists entries : Dict PyVal,
       dict_get (category_name (categorize key)) (_format_features features)
         = Some entries /\
       dict_get key entries = Some (normalize_value val)).
Proof.
  split; [vm_compute; reflexivity|].
  split; [|split].
  - intros key. split.
    + unfold categorize. rewrite lower_idempotent. reflexivity.
    + apply categorize_priority.
  - apply any_in_match.
  - apply format_features_placed.
Qed.

(** The example of the specification: "redness" is filed under Color, and
    the Category Map has no entry Other. *)
Lemma redness_is_color :
  _format_features example_features <> example_with_other /\
  categorize "redness" = Color /\
  dict_get "Color" (_format_features example_features)
    = Some [("redness", VStr "high")] /\
  dict_get "Other" (_format_features example_features) = None.
Proof.
  split; [|split; [|split]]; try (vm_compute; reflexivity).
  vm_compute. intros H. discriminate H.
Qed.

(** ** Remote narrative client *)

Section NarrativeFallback.

Context {W : Type} (sv : Gemini.Services W) (self : Gemini.GeminiEnhancer).

Lemma send_run (tag : string) (note : option string)
    (contents : list Gemini.Part) :
  Gemini.strategy_run tag (Gemini.send sv self tag note contents).
Proof.
  intros st r st'. unfold Gemini.send.
  destruct (Gemini.generate_content sv (Gemini.remote st)
              (Gemini.model_or_empty self) contents) as [[text|e] w'];
    intros H; injection H as <- <-; cbn.
  - split; [reflexivity|]. split; [discriminate|].
    eexists. split; [reflexivity|]. repeat constructor.
  - split; [reflexivity|]. split; [eauto|].
    eexists. split; [reflexivity|]. repeat constructor.
Qed.

(** A strategy that enters, prepares its request and either sends it or
    records the failure of the preparation. *)
Lemma prepared_run (tag : string) (note : option string)
    (prepared : exc (list Gemini.Part)) :
  Gemini.strategy_run tag
    (fun st =>
       match prepared with
       | Ok contents =>
           Gemini.send sv self tag note contents
             (Gemini.record (Gemini.Entered tag) st)
       | Raise e =>
           (Gemini.StrategyFailed e tag,
            Gemini.record (Gemini.Entered tag) st)
       end).
Proof.
  intros st r st'. destruct prepared as [contents|e].
  - intros H. destruct (send_run tag note contents _ _ _ H)
      as [Htag [Hfail [evs [Htrace Hall]]]].
    split; [exact Htag|]. split; [exact Hfail|].
    exists (Gemini.Entered tag :: evs). split.
    + rewrite Htrace. cbn. rewrite <- app_assoc. reflexivity.
    + constructor; [reflexivity | exact Hall].
  - intros H. injection H as <- <-. cbn.
    split; [reflexivity|]. split; [eauto|].
    eexists. split; [reflexivity|]. repeat constructor.
Qed.

Lemma analyze_with_bytes_run (image_bytes : list Z) (results : Response) :
  Gemini.strategy_run "bytes" (Gemini._analyze_with_bytes sv self image_bytes results).
Proof. unfold Gemini._analyze_with_bytes. apply prepared_run. Qed.

Lemma analyze_with_pil_run (image_bytes : list Z) (results : Response) :
  Gemini.strategy_run "pil" (Gemini._analyze_with_pil sv self image_bytes results).
Proof. unfold Gemini._analyze_with_pil. apply prepared_run. Qed.

Lemma analyze_simple_run (image_bytes : list Z) :
  Gemini.strategy_run "simple" (Gemini._analyze_simple sv self image_bytes).
Proof. unfold Gemini._analyze_simple. apply prepared_run. Qed.

(** C6: on a ready client, when strategy A (bytes) fails and strategy B
    (pil) succeeds, [analyze_wound] returns the result of B, which has
    [success: True] and the strategy tag "pil", and the run adds no event
    of strategy C to the trace: C is neither entered nor sent.  When all
    three strategies fail, the result is the failure record whose details
    are the error of the third strategy. *)
Theorem analyze_wound_fallback (image_bytes : list Z) (results : Response)
    (st st1 st2 : Gemini.State W) (r1 r2 : Gemini.NarrativeResult) :
  Gemini.not_ready self = false ->
  Gemini._analyze_with_bytes sv self image_bytes results st = (r1, st1) ->
  Gemini.succeeded r1 = false ->
  Gemini._analyze_with_pil sv self image_bytes results st1 = (r2, st2) ->
  (Gemini.succeeded r2 = true ->
     Gemini.analyze_wound sv self image_bytes results st = (r2, st2) /\
     Gemini.get_strategy r2 = Some "pil" /\
     exists evs,
       Gemini.trace st2 = (Gemini.trace st ++ evs)%list /\
       Forall (fun ev => Gemini.event_strategy ev <> "simple") evs) /\
  (Gemini.succeeded r2 = false ->
     forall (r3 : Gemini.NarrativeResult) (st3 : Gemini.State W),
     Gemini._analyze_simple sv self image_bytes st2 = (r3, st3) ->
     Gemini.succeeded r3 = false ->
     exists e3,
       r3 = Gemini.StrategyFailed e3 "simple" /\
       Gemini.analyze_wound sv self image_bytes results st =
         (Gemini.AllFailed "All analysis strategies failed" e3, st3) /\
       Gemini.get_details
         (fst (Gemini.analyze_wound sv self image_bytes results st))
         = Some e3).
Proof.
  intros Hready HA HfailA HB.
  unfold Gemini.analyze_wound. rewrite Hready, HA, HfailA, HB.
  split.
  - intros HokB. rewrite HokB. split; [reflexivity|].
    destruct (analyze_with_bytes_run _ _ _ _ _ HA) as [_ [_ [evA [HtA HallA]]]].
    destruct (analyze_with_pil_run _ _ _ _ _ HB) as [Htag [_ [evB [HtB HallB]]]].
    split; [exact Htag|].
    exists (evA ++ evB)%list. split.
    + rewrite HtB, HtA, app_assoc. reflexivity.
    + apply Forall_app. split.
      * eapply Forall_impl; [|exact HallA]. cbn. intros ev ->. discriminate.
      * eapply Forall_impl; [|exact HallB]. cbn. intros ev ->. discriminate.
  - intros HfailB r3 st3 HC HfailC. rewrite HfailB, HC, HfailC.
    destruct (analyze_simple_run _ _ _ _ HC) as [_ [Hrec _]].
    destruct (Hrec HfailC) as [e3 ->].
    exists e3. cbn. repeat split.
Qed.

End NarrativeFallback.

(** A remote model that refuses raw bytes: strategy A fails, B succeeds
    with two requests sent; and a model that is down: all three fail. *)
Lemma analyze_wound_fallback_witness :
  (exists r st',
     Gemini.analyze_wound (toy_services false) toy_client toy_photo
       (Failure "n/a") (Gemini.mkState 0%nat []) = (r, st') /\
     Gemini.succeeded r = true /\
     Gemini.get_strategy r = Some "pil" /\
     Gemini.remote st' = 2%nat) /\
  Gemini.get_details
    (fst (Gemini.analyze_wound (toy_services true) toy_client toy_photo
            (Failure "n/a") (Gemini.mkState 0%nat [])))
    = Some "503 UNAVAILABLE".
Proof.
  split.
  - destruct (proj1 (analyze_wound_fallback (toy_services false) toy_client
                       toy_photo (Failure "n/a") (Gemini.mkState 0%nat [])
                       _ _ _ _ eq_refl eq_refl eq_refl eq_refl) eq_refl)
      as [Hrun [Htag _]].
    eexists. eexists. split; [exact Hrun|].
    split; [reflexivity|]. split; [exact Htag | reflexivity].
  - destruct (proj2 (analyze_wound_fallback (toy_services true) toy_client
                       toy_photo (Failure "n/a") (Gemini.mkState 0%nat [])
                       _ _ _ _ eq_refl eq_refl eq_refl eq_refl) eq_refl
                _ _ eq_refl eq_refl)
      as [e3 [He3 [_ Hdetails]]].
    injection He3 as <-. exact Hdetails.
Defined.

(** ** Heat map *)

Lemma mapi_from_length {A B : Type} (f : nat -> A -> B) (l : list A) :
  forall k : nat, length (mapi_from f k l) = length l.
Proof.
  induction l as [|x l IH]; intros k; cbn; [reflexivity|].
  rewrite IH. reflexivity.
Qed.

Lemma nth_mapi_from {A B : Type} (f : nat -> A -> B) (l : list A) :
  forall (k i : nat) (d : A) (d' : B),
  (i < length l)%nat ->
  nth i (mapi_from f k l) d' = f (k + i)%nat (nth i l d).
Proof.
  induction l as [|x l IH]; intros k i d d' Hi; cbn in Hi; [lia|].
  destruct i as [|i]; cbn.
  - rewrite Nat.add_0_r. reflexivity.
  - rewrite (IH (S k) i d d') by lia.
    rewrite Nat.add_succ_r. reflexivity.
Qed.

Lemma fill_where_length {A : Type} (sel : nat -> bool) (color : A * A * A)
    (im : Image A) :
  height (fill_where sel color im) = height im /\
  width (fill_where sel color im) = width im /\
  length (pixels (fill_where sel color im)) = length (pixels im).
Proof.
  unfold fill_where. cbn. rewrite mapi_from_length. auto.
Qed.

Lemma legend_shape (cv : Cv2) (cols : nat) :
  height (legend cv cols) = legend_height /\
  width (legend cv cols) = cols /\
  length (pixels (legend cv cols)) = (legend_height * cols * 3)%nat.
Proof.
  unfold legend, putText, rectangle.
  repeat split; try reflexivity.
  repeat (match goal with
          | |- context [pixels (fill_where ?s ?c ?im)] =>
              rewrite (proj2 (proj2 (fill_where_length s c im)))
          end).
  unfold zeros_image. cbn [pixels]. apply repeat_length.
Qed.

Lemma any_set_not_all_zero (m : Mask) :
  any_set m = true -> all_zero m = false.
Proof.
  unfold any_set, all_zero.
  induction (data m) as [|v l IH]; cbn; [discriminate|].
  unfold is_set at 1. destruct (Z.ltb_spec 0 v) as [Hv|Hv]; cbn.
  - intros _. destruct (Z.eqb_spec v 0); [lia | reflexivity].
  - intros H. rewrite (IH H). apply andb_false_r.
Qed.

Lemma body_applies (m : Mask) :
  (any_set m && negb (all_zero m))%bool = any_set m.
Proof.
  destruct (any_set m) eqn:E; [|reflexivity].
  rewrite (any_set_not_all_zero m E). reflexivity.
Qed.

Lemma clip_sample_comp (x y : Q) : (x == y)%Q -> clip_sample x = clip_sample y.
Proof.
  intros H. unfold clip_sample.
  assert (H0 : Qle_bool x 0 = Qle_bool y 0) by (rewrite H; reflexivity).
  assert (H1 : Qle_bool 255 x = Qle_bool 255 y) by (rewrite H; reflexivity).
  assert (H2 : Qfloor x = Qfloor y) by (rewrite H; reflexivity).
  rewrite H0, H1, H2. reflexivity.
Qed.

(** One blending block keeps the shape and computes, sample by sample,
    the weighted sum of the raster and the flat overlay. *)
Lemma blend_region_samples (mask : Mask) (tint : Q * Q * Q) (keep opacity : Q)
    (heatmap : Image Q) :
  shape mask = [height heatmap; width heatmap] ->
  (keep == 1 - opacity)%Q ->
  exists out : Image Q,
    blend_region (any_set mask) mask tint keep opacity heatmap = Ok out /\
    height out = height heatmap /\ width out = width heatmap /\
    length (pixels out) = length (pixels heatmap) /\
    forall (i : nat) (v : Q),
      (i < length (pixels heatmap))%nat ->
      (nth i (pixels heatmap) 0 == v)%Q ->
      (nth i (pixels out) 0 == tinted_sample mask tint opacity i v)%Q.
Proof.
  intros Hshape Hkeep. unfold blend_region, tinted_sample.
  destruct (any_set mask).
  2: { exists heatmap. repeat split; auto. }
  unfold assign_where_set. cbn [zeros_like_image height width pixels].
  destruct (shape_eq_dec (shape mask) [height heatmap; width heatmap])
    as [_|Hne]; [|contradiction].
  cbn [bind]. unfold addWeighted.
  cbn [fill_where height width pixels zeros_like_image].
  rewrite !Nat.eqb_refl. cbn [andb].
  eexists. split; [reflexivity|]. cbn [height width pixels].
  split; [reflexivity|]. split; [reflexivity|].
  assert (Hlen : length (pixels heatmap) =
                 length (mapi_from
                           (fun i v => if is_set (nth (i / 3) (data mask) 0)
                                       then channel_of tint (i mod 3)
                                       else v)
                           0%nat (repeat 0%Q (length (pixels heatmap))))).
  { rewrite mapi_from_length, repeat_length. reflexivity. }
  split.
  { rewrite length_map, length_combine, <- Hlen. apply Nat.min_id. }
  intros i v Hi Hv.
  rewrite (nth_indep _ 0%Q (weighted keep opacity 0 (0%Q, 0%Q))).
  2: { rewrite length_map, length_combine, <- Hlen, Nat.min_id. exact Hi. }
  rewrite map_nth, (combine_nth _ _ i 0%Q 0%Q Hlen).
  rewrite (nth_mapi_from _ _ 0%nat i 0%Q 0%Q)
    by (rewrite repeat_length; exact Hi).
  cbn [Nat.add]. rewrite nth_repeat.
  unfold weighted. cbn [fst snd].
  rewrite Hv, Hkeep.
  destruct (is_set (nth (i / 3) (data mask) 0)); ring.
Qed.

(** C9: for a raster of height [h] and width [w] with masks of its size,
    the heat map is the raster blended, sample by sample, with the flat
    colour of the wound at opacity 0.4, then of the peri-wound at 0.4,
    then of the body at 0.2, each region only when its mask is not empty,
    converted to 8-bit samples, with the legend strip underneath: the
    result has width [w] and height [h] plus the height of the legend. *)
Theorem heatmap_composition (cv : Cv2) (rgb : Image Z)
    (wound peri body : Mask) :
  image_ok rgb ->
  shape wound = [height rgb; width rgb] ->
  shape peri = [height rgb; width rgb] ->
  shape body = [height rgb; width rgb] ->
  exists out : Image Z,
    heatmap_with_legend cv rgb wound peri body = Ok out /\
    height out = (height rgb + legend_height)%nat /\
    width out = width rgb /\
    image_ok out /\
    (forall i : nat,
       (i < height rgb * width rgb * 3)%nat ->
       nth i (pixels out) 0 =
       heatmap_sample wound peri body i (nth i (pixels rgb) 0)) /\
    skipn (height rgb * width rgb * 3) (pixels out) =
      pixels (legend cv (width rgb)).
Proof.
  intros Hok Hwound Hperi Hbody. unfold image_ok in Hok.
  unfold heatmap_with_legend.
  destruct (blend_region_samples wound (255, 100, 100)%Q (6 # 10) (4 # 10)
              (astype_float32 rgb) Hwound ltac:(lra))
    as [h1 [E1 [Hh1 [Hw1 [Hl1 Hs1]]]]].
  cbn [astype_float32 height width pixels] in Hh1, Hw1, Hl1, Hs1.
  rewrite length_map in Hl1, Hs1.
  rewrite E1. cbn [bind].
  destruct (blend_region_samples peri (100, 100, 255)%Q (6 # 10) (4 # 10) h1
              ltac:(rewrite Hh1, Hw1; exact Hperi) ltac:(lra))
    as [h2 [E2 [Hh2 [Hw2 [Hl2 Hs2]]]]].
  rewrite E2. cbn [bind].
  rewrite body_applies.
  destruct (blend_region_samples body (100, 255, 100)%Q (8 # 10) (2 # 10) h2
              ltac:(rewrite Hh2, Hw2, Hh1, Hw1; exact Hbody) ltac:(lra))
    as [h3 [E3 [Hh3 [Hw3 [Hl3 Hs3]]]]].
  rewrite E3. cbn [bind].
  destruct (legend_shape cv (width (clip_uint8 h3))) as [Lh [Lw Ll]].
  unfold vstack. rewrite Lw, Nat.eqb_refl.
  eexists. split; [reflexivity|].
  cbn [height width pixels clip_uint8] in *.
  assert (Hlen3 : length (pixels h3) = (height rgb * width rgb * 3)%nat)
    by congruence.
  assert (Hw : width h3 = width rgb) by congruence.
  split; [rewrite Lh; congruence|].
  split; [exact Hw|].
  split.
  { unfold image_ok. cbn [height width pixels].
    rewrite length_app, length_map, Ll, Lh, Hlen3, Hh3, Hh2, Hh1, Hw. lia. }
  split.
  - intros i Hi.
    rewrite app_nth1 by (rewrite length_map; lia).
    change 0 with (clip_sample 0) at 1. rewrite map_nth.
    unfold heatmap_sample. apply clip_sample_comp.
    apply Hs3; [lia|]. apply Hs2; [lia|]. apply Hs1; [lia|].
    change 0%Q with (inject_Z 0). rewrite map_nth. reflexivity.
  - rewrite <- Hlen3, <- (length_map clip_sample (pixels h3)).
    rewrite skipn_app, skipn_all, Nat.sub_diag, Hw. reflexivity.
Qed.

Lemma heatmap_composition_witness :
  exists out : Image Z,
    heatmap_with_legend toy_cv strip_rgb strip_wound strip_peri strip_body
      = Ok out /\
    height out = 61%nat /\ width out = 2%nat /\
    firstn 6 (pixels out) = [64; 31; 34; 54; 58; 123].
Proof.
  destruct (heatmap_composition toy_cv strip_rgb strip_wound strip_peri
              strip_body eq_refl eq_refl eq_refl eq_refl)
    as [out [Hrun [Hh [Hw _]]]].
  exists out. split; [exact Hrun|]. split; [exact Hh|]. split; [exact Hw|].
  assert (Hout : Ok out =
                 heatmap_with_legend toy_cv strip_rgb strip_wound strip_peri
                   strip_body) by (symmetry; exact Hrun).
  vm_compute in Hout. injection Hout as ->. reflexivity.
Defined.

(* ===================================================================== *)
(** * Further properties of the code                                       *)
(* ===================================================================== *)

(** ** Rounding and percentages *)

Lemma round_half_even_comp (x y : Q) :
  (x == y)%Q -> round_half_even x = round_half_even y.
Proof.
  intros H. unfold round_half_even.
  assert (Hf : Qfloor x = Qfloor y) by (rewrite H; reflexivity).
  rewrite Hf.
  assert (Hc : Qcompare (x - inject_Z (Qfloor y)) (1 # 2) =
               Qcompare (y - inject_Z (Qfloor y)) (1 # 2))
    by (rewrite H; reflexivity).
  rewrite Hc. reflexivity.
Qed.

Lemma inject_Z_lt_succ (a b : Z) :
  (inject_Z a < inject_Z b + 1)%Q -> a <= b.
Proof.
  unfold Qlt, Qplus, inject_Z. cbn. lia.
Qed.

Lemma round_half_even_monotone (x y : Q) :
  (x <= y)%Q -> round_half_even x <= round_half_even y.
Proof.
  intros Hxy.
  destruct (round_half_even_bounds x) as [Hx _].
  destruct (round_half_even_bounds y) as [_ Hy].
  destruct (Z_le_gt_dec (round_half_even x) (round_half_even y)) as [|Hgt];
    [assumption|].
  assert (Hstep : (inject_Z (round_half_even y) + 1
                   <= inject_Z (round_half_even x))%Q).
  { unfold Qle, Qplus, inject_Z. cbn. lia. }
  assert (Heq : (x == y)%Q) by lra.
  rewrite (round_half_even_comp x y Heq) in Hgt. lia.
Qed.

Lemma round_half_even_integer (q : Q) (k : Z) :
  (q == inject_Z k)%Q -> round_half_even q = k.
Proof.
  intros H. destruct (round_half_even_bounds q) as [Hlo Hhi].
  apply Z.le_antisymm; apply inject_Z_lt_succ; lra.
Qed.

(** X1: the percentage of a region grows with its pixel count, and a region
    that fills the frame has exactly 100 percent. *)
Theorem area_percentage_monotone (p q t : Z) :
  0 < t -> p <= q ->
  (area_percentage p t <= area_percentage q t)%Q /\
  (area_percentage t t == 100)%Q.
Proof.
  intros Ht Hpq. unfold area_percentage.
  destruct (Z.ltb_spec 0 t) as [_|]; [|lia].
  unfold py_round.
  change (Z.to_pos (10 ^ Z.of_nat 2)) with 100%positive.
  change (inject_Z (10 ^ Z.of_nat 2)) with (inject_Z 100).
  split.
  - assert (Hle : (inject_Z p / inject_Z t * 100 * inject_Z 100
                   <= inject_Z q / inject_Z t * 100 * inject_Z 100)%Q).
    { destruct t as [|t'|t']; try lia.
      unfold Qle, Qdiv, Qmult, Qinv, inject_Z. cbn [Qnum Qden]. nia. }
    apply round_half_even_monotone in Hle.
    unfold Qle. cbn [Qnum Qden]. lia.
  - rewrite (round_half_even_integer _ 10000).
    + reflexivity.
    + destruct t as [|t'|t']; try lia.
      unfold Qeq, Qdiv, Qmult, Qinv, inject_Z. cbn [Qnum Qden]. lia.
Qed.

Lemma area_percentage_monotone_witness :
  (area_percentage 1 4 <= area_percentage 3 4)%Q.
Proof.
  exact (proj1 (area_percentage_monotone 1 3 4 eq_refl
                  ltac:(discriminate))).
Defined.

Lemma py_round_idempotent (q : Q) (ndigits : nat) :
  py_round (py_round q ndigits) ndigits = py_round q ndigits.
Proof.
  unfold py_round at 1 3.
  set (k := round_half_even (q * inject_Z (10 ^ Z.of_nat ndigits))).
  f_equal. unfold py_round. fold k.
  apply round_half_even_integer.
  assert (Hpos : 0 < 10 ^ Z.of_nat ndigits) by (apply Z.pow_pos_nonneg; lia).
  destruct (10 ^ Z.of_nat ndigits) as [|s|s]; try lia.
  unfold Qeq, Qmult, inject_Z. cbn [Qnum Qden Z.to_pos]. lia.
Qed.

(** X2: normalising a feature value twice is normalising it once: a value
    that went through the classifier is left as it is by a second pass. *)
Theorem normalize_value_idempotent (value : PyVal) :
  normalize_value (normalize_value value) = normalize_value value.
Proof.
  destruct value as [z|[q| | |]|s]; cbn; try reflexivity.
  rewrite py_round_idempotent. reflexivity.
Qed.

(** ** Severity outside the real scores *)

(** X3: a score that is not a finite number is never refused: minus
    infinity reads Mild, plus infinity and NaN read Very Severe, since
    every comparison with NaN is false. *)
Theorem severity_of_non_finite (pwat : pyfloat) :
  (forall q : Q, pwat <> Finite q) ->
  _get_severity_level pwat =
  match pwat with
  | NegInf => tier_mild
  | _ => tier_very_severe
  end.
Proof.
  intros Hnf. destruct pwat as [q| | |]; try reflexivity.
  exfalso. apply (Hnf q). reflexivity.
Qed.

Lemma severity_of_non_finite_witness :
  _get_severity_level NaN = tier_very_severe.
Proof.
  exact (severity_of_non_finite NaN ltac:(intros q H; discriminate H)).
Defined.

(** X4: the tier printed by the quick summary of the test client is, for
    every score, the level of the processor in capitals. *)
Theorem quick_summary_agrees (pwat : pyfloat) :
  quick_summary_severity pwat = upper (level (_get_severity_level pwat)).
Proof.
  unfold quick_summary_severity, _get_severity_level.
  destruct (float_lt pwat 8); [reflexivity|].
  destruct (float_lt pwat 16); [reflexivity|].
  destruct (float_lt pwat 24); reflexivity.
Qed.

(** ** The masks of the split *)

Lemma nth_map_in_range {A B : Type} (f : A -> B) (l : list A) (i : nat)
    (d : A) (d' : B) :
  (i < length l)%nat -> nth i (map f l) d' = f (nth i l d).
Proof.
  intros Hi. rewrite (nth_indep _ d' (f d)) by (rewrite length_map; exact Hi).
  apply map_nth.
Qed.

Lemma nth_combine_in_range {A B : Type} (l : list A) (l' : list B) (i : nat)
    (d : A) (d' : B) :
  (i < length l)%nat -> (i < length l')%nat ->
  nth i (combine l l') (d, d') = (nth i l d, nth i l' d').
Proof.
  revert l' i. induction l as [|x l IH]; intros [|y l'] i Hl Hl';
    cbn in Hl, Hl'; try lia.
  destruct i as [|i]; cbn; [reflexivity|]. apply IH; lia.
Qed.

Lemma channel_shape (k : nat) (seg : ndarray Z) (h w c : nat) :
  shape seg = [h; w; c] ->
  shape (channel k seg) = [h; w] /\
  length (data (channel k seg)) = (h * w)%nat /\
  forall p : nat, (p < h * w)%nat ->
    nth p (data (channel k seg)) 0 = nth (p * c + k) (data seg) 0.
Proof.
  intros Hs. unfold channel. rewrite Hs. cbn [shape data].
  split; [reflexivity|]. split; [rewrite length_map, length_seq; reflexivity|].
  intros p Hp.
  rewrite (nth_map_in_range _ _ p 0%nat) by (rewrite length_seq; exact Hp).
  rewrite seq_nth by exact Hp. reflexivity.
Qed.

Lemma zeros_like_bytes (a : ndarray Z) (v : Z) :
  In v (data (zeros_like a)) -> 0 <= v < 256.
Proof.
  unfold zeros_like. cbn. intros H. apply repeat_spec in H. lia.
Qed.

(** X5: whatever the segmentation, the wound, body and background masks
    of the split have one shape and one buffer length, and all their
    samples are bytes. *)
Theorem split_masks_same_shape (segmentation : ndarray Z) :
  let wound := fst (fst (split_masks segmentation)) in
  let body := snd (fst (split_masks segmentation)) in
  let bg := snd (split_masks segmentation) in
  shape body = shape wound /\ shape bg = shape wound /\
  length (data body) = length (data wound) /\
  length (data bg) = length (data wound) /\
  (forall v, In v (data wound) \/ In v (data body) \/ In v (data bg) ->
     0 <= v < 256).
Proof.
  unfold split_masks.
  destruct (Nat.eqb (length (shape segmentation)) 3
            && Nat.leb 2 (nth 2 (shape segmentation) 0%nat))%bool eqn:E.
  - apply andb_true_iff in E. destruct E as [Hlen _].
    apply Nat.eqb_eq in Hlen.
    destruct (shape segmentation) as [|h [|w [|c [|x rest]]]] eqn:Hs;
      try discriminate Hlen.
    destruct (channel_shape 0 segmentation h w c Hs) as [S0 [L0 _]].
    destruct (channel_shape 1 segmentation h w c Hs) as [S1 [L1 _]].
    destruct (channel_shape 2 segmentation h w c Hs) as [S2 [L2 _]].
    cbn [fst snd nth].
    destruct (Nat.ltb 2 c); cbn [astype_uint8 zeros_like shape data];
      rewrite ?length_map, ?repeat_length, ?S0, ?S1, ?S2, ?L0, ?L1, ?L2;
      (split; [reflexivity|]); (split; [reflexivity|]);
      (split; [reflexivity|]); (split; [reflexivity|]);
      intros v [H|[H|H]];
      try (apply in_map_iff in H; destruct H as [u [<- _]];
           apply Z.mod_pos_bound; lia);
      apply repeat_spec in H; lia.
  - cbn [fst snd astype_uint8 zeros_like shape data].
    rewrite ?length_map, ?repeat_length.
    (split; [reflexivity|]); (split; [reflexivity|]);
    (split; [reflexivity|]); (split; [reflexivity|]).
    intros v [H|[H|H]].
    + apply (astype_uint8_range segmentation v H).
    + apply repeat_spec in H. lia.
    + apply repeat_spec in H. lia.
Qed.

(** X6: a segmentation of shape (h, w, c) with at least two channels is
    split by channel: the masks have shape (h, w) with h*w samples, pixel
    [p] of the wound, body and background mask is sample 0, 1 and 2 of
    pixel [p] reduced to a byte, and the background is all zeros when
    there are only two channels. *)
Theorem split_masks_by_channel (segmentation : ndarray Z) (h w c : nat) :
  shape segmentation = [h; w; c] ->
  (2 <= c)%nat ->
  let wound := fst (fst (split_masks segmentation)) in
  let body := snd (fst (split_masks segmentation)) in
  let bg := snd (split_masks segmentation) in
  shape wound = [h; w] /\
  well_formed wound /\ well_formed body /\ well_formed bg /\
  forall p : nat, (p < h * w)%nat ->
    nth p (data wound) 0 = nth (p * c) (data segmentation) 0 mod 256 /\
    nth p (data body) 0 = nth (p * c + 1) (data segmentation) 0 mod 256 /\
    nth p (data bg) 0 =
      if Nat.ltb 2 c then nth (p * c + 2) (data segmentation) 0 mod 256
      else 0.
Proof.
  intros Hs Hc.
  destruct (channel_shape 0 segmentation h w c Hs) as [S0 [L0 N0]].
  destruct (channel_shape 1 segmentation h w c Hs) as [S1 [L1 N1]].
  destruct (channel_shape 2 segmentation h w c Hs) as [S2 [L2 N2]].
  assert (Hnth : forall (a : ndarray Z) (p : nat),
             (p < length (data a))%nat ->
             nth p (data (astype_uint8 a)) 0 = nth p (data a) 0 mod 256).
  { intros a p Hp. unfold astype_uint8. cbn [data].
    rewrite (nth_map_in_range _ _ p 0) by exact Hp. reflexivity. }
  unfold split_masks. rewrite Hs. cbn [length nth Nat.eqb andb].
  destruct (Nat.leb_spec 2 c) as [_|]; [|lia].
  cbn [fst snd].
  assert (Hwf : forall a : ndarray Z,
             shape a = [h; w] -> length (data a) = (h * w)%nat ->
             well_formed (astype_uint8 a)).
  { intros a Sa La. unfold well_formed, astype_uint8. cbn [shape data].
    rewrite length_map, Sa, La. cbn. lia. }
  split; [exact S0|]. split; [apply Hwf; assumption|].
  split; [apply Hwf; assumption|].
  split.
  { destruct (Nat.ltb 2 c); [apply Hwf; assumption|].
    unfold well_formed, zeros_like, astype_uint8. cbn [shape data].
    rewrite repeat_length, length_map, S0, L0. cbn. lia. }
  intros p Hp.
  rewrite !Hnth by lia. rewrite N0, N1 by exact Hp.
  rewrite Nat.add_0_r. split; [reflexivity|]. split; [reflexivity|].
  destruct (Nat.ltb 2 c).
  - rewrite Hnth by lia. rewrite N2 by exact Hp. reflexivity.
  - unfold zeros_like. cbn [data]. apply nth_repeat.
Qed.

Lemma split_masks_by_channel_witness :
  fst (fst (split_masks (mkArr [1; 2; 2]%nat [300; 7; 0; 9]))) =
    mkArr [1; 2]%nat [44; 0] /\
  shape (fst (fst (split_masks (mkArr [1; 2; 2]%nat [300; 7; 0; 9])))) =
    [1; 2]%nat.
Proof.
  split; [reflexivity|].
  exact (proj1 (split_masks_by_channel (mkArr [1; 2; 2]%nat [300; 7; 0; 9])
                  1 2 2 eq_refl (le_n 2))).
Defined.

(** ** The peri-wound mask inside the body *)

(** X7: when the body mask is not empty and the stage does not raise, the
    peri-wound mask is the ring of the collaborator cut to the filled
    silhouette of body and wound: a sample is the ring's where the filled
    silhouette is not zero, and zero elsewhere. *)
Theorem peri_wound_within_body (ds : Deepskin) (wound body peri : Mask) :
  any_set body = true ->
  peri_wound_try ds wound body = Ok peri ->
  peri_wound_stage ds wound body = peri /\
  exists ring union filled : Mask,
    get_perilesion_mask ds wound (200, 200)%nat = Ok ring /\
    bitwise_or body wound = Ok union /\
    imfill ds union = Ok filled /\
    shape ring = shape filled /\
    shape peri = shape ring /\
    forall i : nat,
      (i < length (data ring))%nat -> (i < length (data filled))%nat ->
      nth i (data peri) 0 =
        if nth i (data filled) 0 =? 0 then 0 else nth i (data ring) 0.
Proof.
  intros Hbody Htry.
  split; [unfold peri_wound_stage; rewrite Htry; reflexivity|].
  unfold peri_wound_try in Htry. rewrite Hbody in Htry.
  destruct (get_perilesion_mask ds wound (200, 200)%nat) as [ring|e] eqn:Er;
    cbn [bind] in Htry; [|discriminate].
  destruct (bitwise_or body wound) as [union|e] eqn:Eu; cbn [bind] in Htry;
    [|discriminate].
  destruct (imfill ds union) as [filled|e] eqn:Ef; cbn [bind] in Htry;
    [|discriminate].
  unfold bitwise_and_mask in Htry.
  destruct (shape_eq_dec (shape ring) (shape filled)) as [Hsh|];
    [|discriminate].
  injection Htry as <-.
  exists ring, union, filled. cbn [shape data].
  do 3 (split; [first [assumption | reflexivity]|]). split; [exact Hsh|].
  split; [reflexivity|].
  intros i Hr Hf.
  rewrite (nth_map_in_range _ _ i (0, 0)) by (rewrite length_combine; lia).
  rewrite nth_combine_in_range by assumption.
  cbn [fst snd]. rewrite Z.land_diag. reflexivity.
Qed.

Lemma peri_wound_within_body_witness :
  peri_wound_stage toy_ds corner_mask toy_body_mask =
  mkArr [2; 2]%nat [0; 255; 255; 0].
Proof.
  exact (proj1 (peri_wound_within_body toy_ds corner_mask toy_body_mask
                  (mkArr [2; 2]%nat [0; 255; 255; 0]) eq_refl eq_refl)).
Defined.

(** ** The visualisations *)

Lemma swap_channels_involutive (l : list Z) :
  swap_channels (swap_channels l) = l.
Proof.
  assert (H : forall n l, (length l <= n)%nat ->
                          swap_channels (swap_channels l) = l).
  { clear l. induction n as [|n IH]; intros l Hl.
    - destruct l; [reflexivity | cbn in Hl; lia].
    - destruct l as [|a [|b [|c rest]]]; try reflexivity.
      cbn. rewrite IH; [reflexivity | cbn in Hl; lia]. }
  apply (H (length l)). lia.
Qed.

(** X8: the conversion between B, G, R and R, G, B order is its own
    inverse, so the [original_image] of a successful result is the JPEG
    encoding of the decoded raster in the channel order of the decoder
    (the empty string if the encoder raises), and the reported dimensions
    are those of the decoded raster. *)
Theorem original_image_round_trip (cv : Cv2) (ds : Deepskin)
    (image_bytes : list Z) (a : Analysis) :
  process_image cv ds image_bytes = Success a ->
  exists bgr : Image Z,
    imdecode cv image_bytes = Ok (Some bgr) /\
    cvtColor (cvtColor bgr) = bgr /\
    original_image a =
      match imencode cv ".jpg" [height bgr; width bgr; 3%nat] (pixels bgr) with
      | Ok buffer => b64encode cv buffer
      | Raise _ => ""
      end /\
    raw_height (raw a) = height bgr /\ raw_width (raw a) = width bgr.
Proof.
  intros Hrun.
  destruct (process_image_success_inv cv ds image_bytes a Hrun)
    as [bgr [seg [Hdec [Hseg Ha]]]].
  exists bgr. split; [exact Hdec|].
  assert (Hinv : cvtColor (cvtColor bgr) = bgr).
  { destruct bgr as [h w px]. unfold cvtColor. cbn.
    rewrite swap_channels_involutive. reflexivity. }
  split; [exact Hinv|].
  rewrite analysis_of_fields in Ha. cbv zeta in Ha. subst a.
  unfold compile_results. cbn [original_image raw raw_height raw_width].
  split; [|split; reflexivity].
  unfold _image_to_base64. rewrite Hinv. cbn [cvtColor height width].
  destruct (imencode cv ".jpg" [height bgr; width bgr; 3%nat] (pixels bgr));
    reflexivity.
Qed.

Lemma original_image_round_trip_witness :
  exists bgr : Image Z,
    imdecode toy_cv toy_photo = Ok (Some bgr) /\
    cvtColor (cvtColor bgr) = bgr.
Proof.
  destruct (original_image_round_trip toy_cv toy_ds toy_photo _
              (process_image_decoded toy_cv toy_ds toy_photo
                 (mkImage 2 2 [10; 10; 250; 20; 120; 20; 20; 130; 20; 5; 5; 5])
                 (mkArr [2; 2; 3]%nat
                    [255; 0; 0; 0; 255; 0; 0; 255; 0; 0; 0; 255])
                 eq_refl eq_refl))
    as [bgr [Hdec [Hinv _]]].
  exists bgr. split; assumption.
Defined.

(** X9: the PNG of a binary mask depends only on the shape of the mask
    and on which of its samples are set: two masks with the same set
    pixels are encoded alike, whatever the values of the set samples. *)
Theorem mask_encoding_by_membership (cv : Cv2) (m1 m2 : Mask) :
  shape m1 = shape m2 ->
  map is_set (data m1) = map is_set (data m2) ->
  _mask_to_base64 cv m1 false = _mask_to_base64 cv m2 false.
Proof.
  intros Hs Hd. unfold _mask_to_base64. rewrite Hs.
  assert (Hm : forall l : list Z,
             map (fun v => if is_set v then 255 else 0) l =
             map (fun b : bool => if b then 255 else 0) (map is_set l))
    by (intros l; rewrite map_map; reflexivity).
  rewrite (Hm (data m1)), (Hm (data m2)), Hd. reflexivity.
Qed.

Lemma mask_encoding_by_membership_witness :
  _mask_to_base64 toy_cv (mkArr [2; 2]%nat [255; 0; 0; 0]) false =
  _mask_to_base64 toy_cv (mkArr [2; 2]%nat [1; 0; 0; 0]) false.
Proof.
  exact (mask_encoding_by_membership toy_cv
           (mkArr [2; 2]%nat [255; 0; 0; 0]) (mkArr [2; 2]%nat [1; 0; 0; 0])
           eq_refl eq_refl).
Defined.


Lemma saturate_byte (v : Z) (q : Q) :
  0 <= v <= 255 -> (q == inject_Z v)%Q -> saturate_u8 q = v.
Proof.
  intros Hv Hq. unfold saturate_u8.
  rewrite (round_half_even_integer q v Hq). lia.
Qed.

Lemma saturate_at_least (v : Z) (q : Q) :
  0 <= v <= 255 -> (inject_Z v <= q)%Q -> v <= saturate_u8 q <= 255.
Proof.
  intros Hv Hq. unfold saturate_u8.
  pose proof (round_half_even_monotone _ _ Hq) as Hm.
  rewrite (round_half_even_integer (inject_Z v) v) in Hm by reflexivity.
  lia.
Qed.

Lemma channel_of_cases {A : Type} (P : A -> Prop) (c0 c1 c2 : A) (ch : nat) :
  P c0 -> P c1 -> P c2 -> P (channel_of (c0, c1, c2) ch).
Proof.
  intros H0 H1 H2. destruct ch as [|[|ch]]; cbn; assumption.
Qed.

Lemma assign_where_set_on_zeros (mask : Mask) (color : Z * Z * Z)
    (im out : Image Z) :
  assign_where_set mask color (zeros_like_image 0 im) = Ok out ->
  height out = height im /\ width out = width im /\
  length (pixels out) = length (pixels im) /\
  forall i : nat, (i < length (pixels im))%nat ->
    nth i (pixels out) 0 =
      if is_set (nth (i / 3) (data mask) 0)
      then channel_of color (i mod 3) else 0.
Proof.
  unfold assign_where_set. cbn [zeros_like_image height width pixels].
  destruct (shape_eq_dec (shape mask) [height im; width im]); [|discriminate].
  intros H. injection H as <-. unfold fill_where, zeros_like_image.
  cbn [height width pixels].
  do 2 (split; [reflexivity|]).
  split; [rewrite mapi_from_length; apply repeat_length|].
  intros i Hi.
  rewrite (nth_mapi_from _ _ 0%nat i 0 0) by (rewrite repeat_length; exact Hi).
  cbn [Nat.add]. rewrite nth_repeat. reflexivity.
Qed.

Lemma addWeighted_u8_samples (src1 src2 out : Image Z) (alpha beta gamma : Q) :
  addWeighted_u8 src1 alpha src2 beta gamma = Ok out ->
  length (pixels src2) = length (pixels src1) ->
  height out = height src1 /\ width out = width src1 /\
  length (pixels out) = length (pixels src1) /\
  forall i : nat, (i < length (pixels src1))%nat ->
    nth i (pixels out) 0 =
      saturate_u8 (weighted alpha beta gamma
                     (inject_Z (nth i (pixels src1) 0),
                      inject_Z (nth i (pixels src2) 0))).
Proof.
  unfold addWeighted_u8.
  destruct (Nat.eqb (height src1) (height src2)
            && Nat.eqb (width src1) (width src2))%bool; [|discriminate].
  intros H Hlen. injection H as <-. cbn [height width pixels].
  do 2 (split; [reflexivity|]).
  split; [rewrite length_map, length_combine, Hlen; apply Nat.min_id|].
  intros i Hi.
  rewrite (nth_map_in_range _ _ i (0, 0))
    by (rewrite length_combine, Hlen, Nat.min_id; exact Hi).
  rewrite nth_combine_in_range by (rewrite ?Hlen; exact Hi).
  reflexivity.
Qed.

(** X11: the transparency overlay has the shape of the photograph, never
    darkens a sample, and leaves untouched every pixel that lies in
    neither the wound nor the peri-wound mask. *)
Theorem overlay_adds_only (rgb : Image Z) (wound peri : Mask) (out : Image Z) :
  Forall (fun v => 0 <= v <= 255) (pixels rgb) ->
  transparency_overlay rgb wound peri = Ok out ->
  height out = height rgb /\ width out = width rgb /\
  length (pixels out) = length (pixels rgb) /\
  forall i : nat, (i < length (pixels rgb))%nat ->
    nth i (pixels rgb) 0 <= nth i (pixels out) 0 <= 255 /\
    (is_set (nth (i / 3) (data wound) 0) = false ->
     is_set (nth (i / 3) (data peri) 0) = false ->
     nth i (pixels out) 0 = nth i (pixels rgb) 0).
Proof.
  intros Hbytes Hrun. unfold transparency_overlay in Hrun.
  destruct (assign_where_set wound (255, 0, 0) (zeros_like_image 0 rgb))
    as [wound_color|] eqn:Ew; cbn [bind] in Hrun; [|discriminate].
  destruct (assign_where_set peri (0, 0, 255) (zeros_like_image 0 rgb))
    as [peri_color|] eqn:Ep; cbn [bind] in Hrun; [|discriminate].
  destruct (addWeighted_u8 rgb 1 wound_color (3 # 10) 0)
    as [first_pass|] eqn:E1; cbn [bind] in Hrun; [|discriminate].
  destruct (assign_where_set_on_zeros _ _ _ _ Ew) as [_ [_ [Lw Sw]]].
  destruct (assign_where_set_on_zeros _ _ _ _ Ep) as [_ [_ [Lp Sp]]].
  destruct (addWeighted_u8_samples _ _ _ _ _ _ E1 Lw) as [H1 [W1 [L1 S1]]].
  destruct (addWeighted_u8_samples _ _ _ _ _ _ Hrun ltac:(congruence))
    as [H2 [W2 [L2 S2]]].
  split; [congruence|]. split; [congruence|]. split; [congruence|].
  intros i Hi.
  assert (Hv : 0 <= nth i (pixels rgb) 0 <= 255).
  { rewrite Forall_forall in Hbytes. apply Hbytes, nth_In. exact Hi. }
  rewrite S2 by (rewrite L1; exact Hi).
  rewrite (S1 i Hi), (Sw i Hi), (Sp i Hi).
  assert (Hnonneg : forall (b : bool) (color : Z * Z * Z),
             (let '(c0, c1, c2) := color in 0 <= c0 /\ 0 <= c1 /\ 0 <= c2) ->
             (0 <= inject_Z (if b then channel_of color (i mod 3) else 0))%Q).
  { intros b [[c0 c1] c2] [H0 [Hc1 Hc2]].
    replace 0%Q with (inject_Z 0) by reflexivity. rewrite <- Zle_Qle.
    destruct b; [|lia].
    apply (channel_of_cases (fun c => 0 <= c)); assumption. }
  pose proof (Hnonneg (is_set (nth (i / 3) (data wound) 0)) (255, 0, 0)
                ltac:(cbn; lia)) as Hw.
  pose proof (Hnonneg (is_set (nth (i / 3) (data peri) 0)) (0, 0, 255)
                ltac:(cbn; lia)) as Hp.
  set (wc := if is_set (nth (i / 3) (data wound) 0)
             then channel_of (255, 0, 0) (i mod 3) else 0) in *.
  set (pc := if is_set (nth (i / 3) (data peri) 0)
             then channel_of (0, 0, 255) (i mod 3) else 0) in *.
  set (v := nth i (pixels rgb) 0) in *.
  assert (Hfirst : v <= saturate_u8 (weighted 1 (3 # 10) 0
                                       (inject_Z v, inject_Z wc)) <= 255).
  { apply saturate_at_least; [exact Hv|].
    unfold weighted. cbn [fst snd]. lra. }
  set (f := saturate_u8 (weighted 1 (3 # 10) 0 (inject_Z v, inject_Z wc)))
    in *.
  assert (Hsecond : f <= saturate_u8 (weighted 1 (3 # 10) 0
                                        (inject_Z f, inject_Z pc)) <= 255).
  { apply saturate_at_least; [lia|].
    unfold weighted. cbn [fst snd]. lra. }
  split; [lia|].
  intros Hnw Hnp.
  assert (Hwc : wc = 0) by (subst wc; rewrite Hnw; reflexivity).
  assert (Hpc : pc = 0) by (subst pc; rewrite Hnp; reflexivity).
  assert (Hf : f = v).
  { subst f. apply saturate_byte; [exact Hv|]. rewrite Hwc.
    unfold weighted. cbn [fst snd]. change (inject_Z 0) with 0%Q. lra. }
  rewrite Hf, Hpc. apply saturate_byte; [exact Hv|].
  unfold weighted. cbn [fst snd]. change (inject_Z 0) with 0%Q. lra.
Qed.

Lemma overlay_adds_only_witness :
  length (pixels (mkImage 1 2 [86; 20; 30; 40; 50; 136])) =
  length (pixels strip_rgb).
Proof.
  exact (proj1 (proj2 (proj2
           (overlay_adds_only strip_rgb strip_wound strip_peri
              (mkImage 1 2 [86; 20; 30; 40; 50; 136])
              ltac:(repeat constructor; lia) eq_refl)))).
Defined.

Lemma clip_sample_byte (v : Z) :
  0 <= v <= 255 -> clip_sample (inject_Z v) = v.
Proof.
  intros Hv. unfold clip_sample.
  destruct (Qle_bool (inject_Z v) 0) eqn:E0.
  - apply Qle_bool_iff in E0. unfold Qle, inject_Z in E0. cbn in E0. lia.
  - destruct (Qle_bool 255 (inject_Z v)) eqn:E1.
    + apply Qle_bool_iff in E1. unfold Qle, inject_Z in E1. cbn in E1. lia.
    + apply Qfloor_Z.
Qed.

(** X12: when no region has a set pixel, the heat map is the photograph
    itself, sample for sample, above the legend strip; the masks need not
    even have the size of the photograph. *)
Theorem heatmap_of_empty_masks (cv : Cv2) (rgb : Image Z)
    (wound peri body : Mask) :
  Forall (fun v => 0 <= v <= 255) (pixels rgb) ->
  any_set wound = false -> any_set peri = false -> any_set body = false ->
  heatmap_with_legend cv rgb wound peri body =
  Ok (mkImage (height rgb + legend_height) (width rgb)
        (pixels rgb ++ pixels (legend cv (width rgb)))%list).
Proof.
  intros Hbytes Hw Hp Hb. unfold heatmap_with_legend.
  rewrite Hw, Hp, Hb. cbn [andb blend_region bind].
  unfold vstack.
  rewrite (proj1 (proj2 (legend_shape cv (width (clip_uint8 (astype_float32 rgb)))))).
  rewrite Nat.eqb_refl.
  cbn [clip_uint8 astype_float32 height width pixels].
  assert (Hmap : map clip_sample (map inject_Z (pixels rgb)) = pixels rgb).
  { induction Hbytes as [|v l Hv _ IH]; cbn; [reflexivity|].
    rewrite clip_sample_byte by exact Hv. rewrite IH. reflexivity. }
  rewrite Hmap. reflexivity.
Qed.

Lemma heatmap_of_empty_masks_witness :
  exists out : Image Z,
    heatmap_with_legend toy_cv strip_rgb strip_body strip_body strip_body
      = Ok out /\
    firstn 6 (pixels out) = pixels strip_rgb.
Proof.
  eexists. split.
  - exact (heatmap_of_empty_masks toy_cv strip_rgb strip_body strip_body
             strip_body ltac:(repeat constructor; lia)
             eq_refl eq_refl eq_refl).
  - reflexivity.
Defined.

Lemma heatmap_runs (cv : Cv2) (rgb : Image Z) (wound peri body : Mask) :
  shape wound = [height rgb; width rgb] ->
  shape peri = [height rgb; width rgb] ->
  shape body = [height rgb; width rgb] ->
  exists out : Image Z, heatmap_with_legend cv rgb wound peri body = Ok out.
Proof.
  intros Hwound Hperi Hbody. unfold heatmap_with_legend.
  destruct (blend_region_samples wound (255, 100, 100)%Q (6 # 10) (4 # 10)
              (astype_float32 rgb) Hwound ltac:(lra))
    as [h1 [E1 [Hh1 [Hw1 _]]]].
  cbn [astype_float32 height width] in Hh1, Hw1.
  rewrite E1. cbn [bind].
  destruct (blend_region_samples peri (100, 100, 255)%Q (6 # 10) (4 # 10) h1
              ltac:(rewrite Hh1, Hw1; exact Hperi) ltac:(lra))
    as [h2 [E2 [Hh2 [Hw2 _]]]].
  rewrite E2. cbn [bind]. rewrite body_applies.
  destruct (blend_region_samples body (100, 255, 100)%Q (8 # 10) (2 # 10) h2
              ltac:(rewrite Hh2, Hw2, Hh1, Hw1; exact Hbody) ltac:(lra))
    as [h3 [E3 _]].
  rewrite E3. cbn [bind]. unfold vstack.
  rewrite (proj1 (proj2 (legend_shape cv (width (clip_uint8 h3))))).
  rewrite Nat.eqb_refl. eauto.
Qed.

Lemma overlay_runs (rgb : Image Z) (wound peri : Mask) :
  shape wound = [height rgb; width rgb] ->
  shape peri = [height rgb; width rgb] ->
  exists out : Image Z, transparency_overlay rgb wound peri = Ok out.
Proof.
  intros Hw Hp. unfold transparency_overlay, assign_where_set.
  cbn [zeros_like_image height width].
  destruct (shape_eq_dec (shape wound) [height rgb; width rgb]);
    [|contradiction].
  destruct (shape_eq_dec (shape peri) [height rgb; width rgb]);
    [|contradiction].
  cbn [bind]. unfold addWeighted_u8.
  cbn [fill_where height width]. rewrite !Nat.eqb_refl.
  cbn [andb bind height width]. rewrite !Nat.eqb_refl. cbn [andb]. eauto.
Qed.

(** X13: when the three masks have the shape of the photograph and the
    wound mask has one sample per pixel, no compositing step raises and
    the result holds the five visualisations, in the order they are
    written. *)
Theorem visualizations_complete (cv : Cv2) (rgb : Image Z)
    (wound peri body : Mask) :
  shape wound = [height rgb; width rgb] ->
  well_formed wound ->
  shape peri = [height rgb; width rgb] ->
  shape body = [height rgb; width rgb] ->
  map fst (_create_all_visualizations cv rgb wound peri body) =
  visualization_names.
Proof.
  intros Hw Hwf Hp Hb. unfold _create_all_visualizations.
  assert (Hlen : length (data wound) = (height rgb * width rgb)%nat).
  { unfold well_formed in Hwf. rewrite Hwf, Hw. cbn. lia. }
  unfold bitwise_and_masked.
  apply Nat.eqb_eq in Hlen. rewrite Hlen.
  destruct (heatmap_runs cv rgb wound peri body Hw Hp Hb) as [hm Ehm].
  rewrite Ehm.
  destruct (overlay_runs rgb wound peri Hw Hp) as [ov Eov].
  rewrite Eov. reflexivity.
Qed.

Lemma visualizations_complete_witness :
  map fst (_create_all_visualizations toy_cv strip_rgb strip_wound strip_peri
             strip_body) = visualization_names.
Proof.
  exact (visualizations_complete toy_cv strip_rgb strip_wound strip_peri
           strip_body eq_refl eq_refl eq_refl eq_refl).
Defined.


(** ** The Category Map holds nothing but the features *)

Lemma dict_set_in {V : Type} (key key' : string) (val v : V) (d : Dict V) :
  In (key', v) (dict_set key val d) ->
  (key' = key /\ v = val) \/ In (key', v) d.
Proof.
  induction d as [|[k u] d IH]; cbn.
  - intros [H|[]]. injection H as <- <-. auto.
  - destruct (String.eqb_spec k key) as [->|Hk]; cbn.
    + intros [H|H]; [injection H as <- <-; auto | auto].
    + intros [H|H]; [auto | destruct (IH H); auto].
Qed.

Lemma classify_fold_sound (features : Dict PyVal) :
  forall (cats : Categories) (c : Category) (key : string) (v : PyVal),
  In (key, v)
     (categories_get c
        (fold_left
           (fun cats kv => categories_set (categorize (fst kv)) (fst kv)
                             (normalize_value (snd kv)) cats)
           features cats)) ->
  In (key, v) (categories_get c cats) \/
  (categorize key = c /\
   exists val, In (key, val) features /\ v = normalize_value val).
Proof.
  induction features as [|[k u] rest IH]; intros cats c key v Hin; cbn in Hin.
  - left. exact Hin.
  - destruct (IH _ _ _ _ Hin) as [Hold|[Hc [val [Hval Hv]]]].
    + rewrite categories_get_set in Hold. cbn [fst snd] in Hold.
      destruct (categorize k) eqn:Ek, c; try (left; exact Hold);
        apply dict_set_in in Hold;
        (destruct Hold as [[-> ->]|Hold];
         [right; split; [exact Ek | exists u; split; [left|]; reflexivity]
         | left; exact Hold]).
    + right. split; [exact Hc|]. exists val. split; [right; exact Hval | exact Hv].
Qed.

Lemma drop_empty_in (name : string) (entries : Dict PyVal)
    (cats : Categories) :
  In (name, entries) (drop_empty cats) ->
  entries <> [] /\
  exists c : Category, name = category_name c /\ entries = categories_get c cats.
Proof.
  unfold drop_empty. rewrite in_map_iff.
  intros [c [Heq Hin]]. injection Heq as <- <-.
  apply filter_In in Hin. destruct Hin as [_ Hne].
  split; [|exists c; auto].
  intros Hnil. rewrite Hnil in Hne. discriminate.
Qed.

(** X15: the Category Map holds no empty category, its categories are
    among the five names, and every entry of a category is a feature of
    the Feature Map whose name selects this category, with its value
    normalised: nothing is invented and nothing is filed twice under
    different categories. *)
Theorem format_features_sound (features : Dict PyVal) (name : string)
    (entries : Dict PyVal) :
  In (name, entries) (_format_features features) ->
  entries <> [] /\
  exists c : Category,
    name = category_name c /\
    forall (key : string) (v : PyVal),
      In (key, v) entries ->
      categorize key = c /\
      exists val, In (key, val) features /\ v = normalize_value val.
Proof.
  intros Hin.
  assert (Hd : In (name, entries) (drop_empty (classify_all features))).
  { destruct features; [destruct Hin | exact Hin]. }
  destruct (drop_empty_in _ _ _ Hd) as [Hne [c [Hname Hentries]]].
  split; [exact Hne|]. exists c. split; [exact Hname|].
  intros key v Hkv. rewrite Hentries in Hkv. unfold classify_all in Hkv.
  destruct (classify_fold_sound _ _ _ _ _ Hkv) as [Hold|Hnew].
  - destruct c; destruct Hold.
  - exact Hnew.
Qed.

Lemma format_features_sound_witness :
  [("contrast_x", VFloat (Finite (12346 # 10000)))] <> [].
Proof.
  exact (proj1 (format_features_sound example_features "Texture"
                  [("contrast_x", VFloat (Finite (12346 # 10000)))]
                  (or_introl eq_refl))).
Defined.

(** ** The feature summary *)



(** ** Requests of the narrative client *)

Lemma requests_sent_app (a b : list Gemini.Event) :
  requests_sent (a ++ b) = (requests_sent a + requests_sent b)%nat.
Proof.
  unfold requests_sent. rewrite filter_app, length_app. reflexivity.
Qed.

Section NarrativeRequests.

Context {W : Type} (sv : Gemini.Services W) (self : Gemini.GeminiEnhancer).

Lemma prepared_requests (tag : string) (note : option string)
    (prepared : exc (list Gemini.Part)) :
  strategy_requests self tag
    (fun st =>
       match prepared with
       | Ok contents =>
           Gemini.send sv self tag note contents
             (Gemini.record (Gemini.Entered tag) st)
       | Raise e =>
           (Gemini.StrategyFailed e tag,
            Gemini.record (Gemini.Entered tag) st)
       end).
Proof.
  intros st r st'. destruct prepared as [contents|e].
  - unfold Gemini.send.
    destruct (Gemini.generate_content sv
                (Gemini.remote (Gemini.record (Gemini.Entered tag) st))
                (Gemini.model_or_empty self) contents) as [[text|e] w'];
      intros H; injection H as <- <-; cbn [Gemini.trace Gemini.record];
      eexists; (split; [rewrite <- app_assoc; reflexivity|]);
      cbn; (split; [lia|]); split; intros Hs; try discriminate Hs; eauto.
  - intros H. injection H as <- <-. cbn [Gemini.trace Gemini.record].
    eexists. split; [reflexivity|]. cbn. split; [lia|].
    split; intros Hs; [discriminate Hs | eauto].
Qed.

Lemma analyze_with_bytes_requests (image_bytes : list Z) (results : Response) :
  strategy_requests self "bytes"
    (Gemini._analyze_with_bytes sv self image_bytes results).
Proof. unfold Gemini._analyze_with_bytes. apply prepared_requests. Qed.

Lemma analyze_with_pil_requests (image_bytes : list Z) (results : Response) :
  strategy_requests self "pil"
    (Gemini._analyze_with_pil sv self image_bytes results).
Proof. unfold Gemini._analyze_with_pil. apply prepared_requests. Qed.

Lemma analyze_simple_requests (image_bytes : list Z) :
  strategy_requests self "simple"
    (Gemini._analyze_simple sv self image_bytes).
Proof. unfold Gemini._analyze_simple. apply prepared_requests. Qed.

(** X17: one call of [analyze_wound] sends at most three requests to the
    remote model, at least one when it succeeds, and none at all (the
    state of the remote model is untouched) when the client is not
    ready. *)
Theorem analyze_wound_requests (image_bytes : list Z) (results : Response)
    (st st' : Gemini.State W) (r : Gemini.NarrativeResult) :
  Gemini.analyze_wound sv self image_bytes results st = (r, st') ->
  exists evs,
    Gemini.trace st' = (Gemini.trace st ++ evs)%list /\
    (requests_sent evs <= 3)%nat /\
    (Gemini.succeeded r = true -> (1 <= requests_sent evs)%nat) /\
    (Gemini.not_ready self = true ->
     evs = [] /\ Gemini.remote st' = Gemini.remote st).
Proof.
  unfold Gemini.analyze_wound.
  destruct (Gemini.not_ready self) eqn:Hready.
  { intros H. injection H as <- <-. exists []. rewrite app_nil_r.
    cbn. repeat split; try lia; discriminate. }
  destruct (Gemini._analyze_with_bytes sv self image_bytes results st)
    as [r1 st1] eqn:HA.
  destruct (analyze_with_bytes_requests _ _ _ _ _ HA)
    as [evA [HtA [HnA [HokA _]]]].
  destruct (Gemini.succeeded r1) eqn:H1.
  { intros H. injection H as <- <-. exists evA.
    split; [exact HtA|]. split; [lia|].
    split; [intros _; destruct (HokA eq_refl); lia | discriminate]. }
  destruct (Gemini._analyze_with_pil sv self image_bytes results st1)
    as [r2 st2] eqn:HB.
  destruct (analyze_with_pil_requests _ _ _ _ _ HB)
    as [evB [HtB [HnB [HokB _]]]].
  destruct (Gemini.succeeded r2) eqn:H2.
  { intros H. injection H as <- <-. exists (evA ++ evB)%list.
    split; [rewrite HtB, HtA, app_assoc; reflexivity|].
    rewrite requests_sent_app. split; [lia|].
    split; [intros _; destruct (HokB eq_refl); lia | discriminate]. }
  destruct (Gemini._analyze_simple sv self image_bytes st2)
    as [r3 st3] eqn:HC.
  destruct (analyze_simple_requests _ _ _ _ HC)
    as [evC [HtC [HnC [HokC _]]]].
  assert (Htrace : Gemini.trace st3 =
                   (Gemini.trace st ++ (evA ++ evB) ++ evC)%list).
  { rewrite HtC, HtB, HtA, !app_assoc. reflexivity. }
  destruct (Gemini.succeeded r3) eqn:H3;
    intros H; injection H as <- <-; exists ((evA ++ evB) ++ evC)%list;
    (split; [exact Htrace|]); rewrite !requests_sent_app;
    (split; [lia|]); split; try discriminate.
  intros _. destruct (HokC eq_refl). lia.
Qed.

(** X18: [analyze_wound] answers one of three dictionaries only: a
    narrative tagged with one of the three strategies and with the pinned
    model, the record "All analysis strategies failed" with its details,
    or, exactly when the client is not ready, the record "Gemini not
    available"; the failure record of a single strategy never reaches the
    caller. *)
Theorem analyze_wound_result_shape (image_bytes : list Z)
    (results : Response) (st st' : Gemini.State W)
    (r : Gemini.NarrativeResult) :
  Gemini.analyze_wound sv self image_bytes results st = (r, st') ->
  (Gemini.not_ready self = false /\
   exists text tag timestamp note,
     r = Gemini.Narrative text (Gemini.model_or_empty self) tag timestamp
           note /\
     In tag ["bytes"; "pil"; "simple"]) \/
  (Gemini.not_ready self = false /\
   exists details,
     r = Gemini.AllFailed "All analysis strategies failed" details) \/
  (Gemini.not_ready self = true /\
   r = Gemini.Unavailable "Gemini not available"
         "Check API key and model access" (Gemini.fallback_models self)).
Proof.
  unfold Gemini.analyze_wound.
  destruct (Gemini.not_ready self) eqn:Hready.
  { intros H. injection H as <- <-. right; right. auto. }
  destruct (Gemini._analyze_with_bytes sv self image_bytes results st)
    as [r1 st1] eqn:HA.
  destruct (analyze_with_bytes_requests _ _ _ _ _ HA)
    as [evA [_ [_ [HokA _]]]].
  destruct (Gemini.succeeded r1) eqn:H1.
  { intros H. injection H as Hr Hs. subst r st'. left.
    split; [reflexivity|].
    destruct (HokA eq_refl) as [_ [text [ts [note ->]]]].
    exists text, "bytes", ts, note. cbn. auto. }
  destruct (Gemini._analyze_with_pil sv self image_bytes results st1)
    as [r2 st2] eqn:HB.
  destruct (analyze_with_pil_requests _ _ _ _ _ HB)
    as [evB [_ [_ [HokB _]]]].
  destruct (Gemini.succeeded r2) eqn:H2.
  { intros H. injection H as Hr Hs. subst r st'. left.
    split; [reflexivity|].
    destruct (HokB eq_refl) as [_ [text [ts [note ->]]]].
    exists text, "pil", ts, note. cbn. auto. }
  destruct (Gemini._analyze_simple sv self image_bytes st2)
    as [r3 st3] eqn:HC.
  destruct (analyze_simple_requests _ _ _ _ HC)
    as [evC [_ [_ [HokC _]]]].
  destruct (Gemini.succeeded r3) eqn:H3; intros H; injection H as Hr Hs;
    subst r st'.
  - left. split; [reflexivity|].
    destruct (HokC eq_refl) as [_ [text [ts [note ->]]]].
    exists text, "simple", ts, note. cbn. auto.
  - right; left. split; [reflexivity|]. eauto.
Qed.

End NarrativeRequests.

Lemma analyze_wound_requests_witness :
  exists evs,
    Gemini.trace
      (snd (Gemini.analyze_wound (toy_services false) toy_client toy_photo
              (Failure "n/a") (Gemini.mkState 0%nat []))) = evs /\
    (requests_sent evs <= 3)%nat.
Proof.
  destruct (analyze_wound_requests (toy_services false) toy_client toy_photo
              (Failure "n/a") (Gemini.mkState 0%nat []) _ _
              (surjective_pairing _))
    as [evs [Htrace [Hle _]]].
  exists evs. split; [exact Htrace | exact Hle].
Defined.

Lemma analyze_wound_result_shape_witness :
  Gemini.succeeded
    (fst (Gemini.analyze_wound (toy_services true) toy_client toy_photo
            (Failure "n/a") (Gemini.mkState 0%nat []))) = false.
Proof.
  destruct (analyze_wound_result_shape (toy_services true) toy_client
              toy_photo (Failure "n/a") (Gemini.mkState 0%nat []) _ _
              (surjective_pairing _))
    as [[_ [text [tag [ts [note [H _]]]]]]|[[_ [details H]]|[_ H]]];
    rewrite H; try reflexivity.
  vm_compute in H. discriminate H.
Defined.

(** ** Construction of the client *)

Section ClientLife.

Context {W : Type} (sv : Gemini.Services W).
Context (make_client : string -> exc unit).
Context (history_prompt :
           option pyfloat -> list GeminiLife.Previous -> exc string).



(** X20: [analyze_with_history] answers its own dictionary only after
    exactly one request, sent with the pinned model, and flags it with
    whether previous analyses were given; in every other case (client not
    available, unreadable image, failed request) it answers what
    [analyze_wound] answers, which for a client that is not available is
    the record "Gemini not available" without any request. *)
Theorem analyze_with_history_cases (self : Gemini.GeminiEnhancer)
    (image_bytes : list Z) (results : Response)
    (previous : list GeminiLife.Previous) (st st' : Gemini.State W)
    (r : GeminiLife.HistoryResult) :
  GeminiLife.analyze_with_history sv history_prompt self image_bytes results
    previous st = (r, st') ->
  (forall text model flag timestamp,
     r = GeminiLife.HistoryNarrative text model flag timestamp ->
     Gemini.available self = true /\
     model = Gemini.model_or_empty self /\
     flag = match previous with [] => false | _ => true end /\
     exists contents,
       Gemini.trace st' =
         (Gemini.trace st ++ [Gemini.Sent "history" model contents])%list) /\
  (forall d,
     r = GeminiLife.Delegated d ->
     exists st0,
       Gemini.analyze_wound sv self image_bytes results st0 = (d, st') /\
       (st0 = st \/
        exists contents,
          Gemini.trace st0 =
            (Gemini.trace st
             ++ [Gemini.Sent "history" (Gemini.model_or_empty self)
                   contents])%list)) /\
  (Gemini.available self = false ->
   st' = st /\
   r = GeminiLife.Delegated
         (Gemini.Unavailable "Gemini not available"
            "Check API key and model access" (Gemini.fallback_models self))).
Proof.
  unfold GeminiLife.analyze_with_history.
  destruct (Gemini.available self) eqn:Hav; cbn [negb].
  2: { destruct (Gemini.analyze_wound sv self image_bytes results st)
         as [d st1] eqn:Hw.
       intros H. injection H as <- <-.
       split; [intros ? ? ? ? Hr; discriminate Hr|].
       split.
       - intros d' Hd. injection Hd as <-. exists st. auto.
       - intros _. unfold Gemini.analyze_wound, Gemini.not_ready in Hw.
         rewrite Hav in Hw. cbn in Hw. injection Hw as <- <-. auto. }
  destruct (bind (Gemini.open_rgb sv image_bytes) _) as [contents|e].
  2: { destruct (Gemini.analyze_wound sv self image_bytes results st)
         as [d st1] eqn:Hw.
       intros H. injection H as <- <-.
       split; [intros ? ? ? ? Hr; discriminate Hr|].
       split; [|discriminate].
       intros d' Hd. injection Hd as <-. exists st. auto. }
  unfold GeminiLife.request.
  destruct (Gemini.generate_content sv (Gemini.remote st)
              (Gemini.model_or_empty self) contents) as [[text|e] w'].
  - intros H. injection H as <- <-.
    split; [|split; [intros d Hd; discriminate Hd | discriminate]].
    intros text' model flag ts Hr. injection Hr as <- <- <- <-.
    repeat split. exists contents. reflexivity.
  - match goal with
    | |- context [Gemini.analyze_wound sv self image_bytes results ?s] =>
        destruct (Gemini.analyze_wound sv self image_bytes results s)
          as [d st1] eqn:Hw
    end.
    intros H. injection H as <- <-.
    split; [intros ? ? ? ? Hr; discriminate Hr|].
    split; [|discriminate].
    intros d' Hd. injection Hd as <-.
    eexists. split; [exact Hw|]. right. exists contents. reflexivity.
Qed.

End ClientLife.


Lemma analyze_with_history_cases_witness :
  exists r st',
    GeminiLife.analyze_with_history (toy_services false)
      (fun _ _ => Ok "You are a wound care specialist reviewing progress.")
      toy_client toy_photo (Failure "n/a")
      [GeminiLife.mkPrevious (Some (Finite 12)) (Some "2025-01-01T00:00:00")]
      (Gemini.mkState 0%nat []) = (r, st') /\
    Gemini.remote st' = 1%nat.
Proof.
  eexists. eexists.
  pose proof (analyze_with_history_cases (toy_services false)
                (fun _ _ => Ok "You are a wound care specialist reviewing progress.")
                toy_client toy_photo (Failure "n/a")
                [GeminiLife.mkPrevious (Some (Finite 12))
                   (Some "2025-01-01T00:00:00")]
                (Gemini.mkState 0%nat []) _ _ eq_refl) as [_ _].
  split; reflexivity.
Defined.

(** ** The endpoint *)

(** X21: the answer of [POST /analyze] always carries the result of
    [process_image]; its [gemini] entry is null exactly when the client is
    not available or the analysis failed, and then no request reaches the
    remote model; otherwise it is the result of [analyze_wound] on that
    analysis.  In particular an upload that does not decode gives a failed
    analysis and a null [gemini] entry. *)
Theorem analyze_endpoint_gemini {W : Type} (cv : Cv2) (ds : Deepskin)
    (sv : Gemini.Services W) (gemini : Gemini.GeminiEnhancer)
    (filename : string) (image_bytes : list Z)
    (st st' : Gemini.State W) (answer : AnalyzeAnswer) :
  analyze_endpoint cv ds sv gemini filename image_bytes st = (answer, st') ->
  answer_filename answer = filename /\
  answer_deepskin answer = process_image cv ds image_bytes /\
  (answer_gemini answer = None <->
   Gemini.available gemini = false \/
   success (process_image cv ds image_bytes) = false) /\
  (answer_gemini answer = None -> st' = st) /\
  (forall r,
     answer_gemini answer = Some r ->
     Gemini.analyze_wound sv gemini image_bytes
       (process_image cv ds image_bytes) st = (r, st')) /\
  ((forall bgr, imdecode cv image_bytes <> Ok (Some bgr)) ->
   success (answer_deepskin answer) = false /\ answer_gemini answer = None).
Proof.
  unfold analyze_endpoint.
  assert (Hdec : (forall bgr, imdecode cv image_bytes <> Ok (Some bgr)) ->
                 success (process_image cv ds image_bytes) = false).
  { intros Hno. unfold process_image, process_image_body.
    destruct (imdecode cv image_bytes) as [[bgr|]|e]; cbn; try reflexivity.
    exfalso. apply (Hno bgr). reflexivity. }
  destruct (Gemini.available gemini) eqn:Hav;
    destruct (success (process_image cv ds image_bytes)) eqn:Hok;
    cbn [andb].
  1: destruct (Gemini.analyze_wound sv gemini image_bytes
                 (process_image cv ds image_bytes) st) as [r0 st0] eqn:Hw.
  all: cbv beta iota zeta; intros H; injection H as <- <-;
    cbn [answer_filename answer_deepskin answer_gemini];
    (split; [reflexivity|]); (split; [reflexivity|]).
  - split; [split; [discriminate | intros [H|H]; discriminate H]|].
    split; [discriminate|]. split.
    + intros r Hr. injection Hr as <-. reflexivity.
    + intros Hno. pose proof (Hdec Hno). congruence.
  - split; [split; auto|]. split; [reflexivity|].
    split; [discriminate | auto].
  - split; [split; auto|]. split; [reflexivity|].
    split; [discriminate|]. intros Hno. pose proof (Hdec Hno).
    congruence.
  - split; [split; auto|]. split; [reflexivity|].
    split; [discriminate | auto].
Qed.

Lemma analyze_endpoint_gemini_witness :
  answer_gemini
    (fst (analyze_endpoint toy_cv toy_ds (toy_services false) toy_client
            "empty.png" [] (Gemini.mkState 0%nat []))) = None.
Proof.
  destruct (analyze_endpoint_gemini toy_cv toy_ds (toy_services false)
              toy_client "empty.png" [] (Gemini.mkState 0%nat []) _ _
              (surjective_pairing _)) as [_ [_ [_ [_ [_ Hno]]]]].
  apply Hno. intros bgr H. cbn in H. discriminate H.
Defined.
